(** * hexrd.findorientations: orientation clustering and its orchestration

    A shallow embedding of [hexrd/findorientations.py] and the properties of
    its clustering dispatch, centroid computation, fiber generation and
    neighbourhood-size estimate.

    Conventions of the embedding:
    - a Python float is a rational or NaN ([float]); comparisons follow
      IEEE (every comparison with NaN is false); arithmetic is exact, the
      rounding of the machine is not modelled;
    - a [4 x N] numpy array of quaternions is the list of its columns;
    - a function that logs, writes files and may raise is a computation in
      the monad [run]: a trace of events and an outcome;
    - numerical libraries (sklearn, scipy, parallel_dbscan, hexrd.xrd) are
      parameters of the sections that use them. *)

From Stdlib Require Import ZArith QArith Qround Lqa Sorting.Sorted.
From stdpp Require Import base strings list gmap.

Open Scope string_scope.
Open Scope list_scope.
Open Scope Z_scope.

(** ** Numbers and arrays *)

Inductive float : Type :=
| Fin (q : Q)
| NaN.

Definition float_gt (a b : float) : bool :=
  match a, b with
  | Fin x, Fin y => negb (Qle_bool x y)
  | _, _ => false
  end.

Definition float_lt (a b : float) : bool := float_gt b a.

Definition isnan (a : float) : bool :=
  match a with NaN => true | Fin _ => false end.

Definition fmul (a b : float) : float :=
  match a, b with
  | Fin x, Fin y => Fin (x * y)
  | _, _ => NaN
  end.

Definition fadd (a b : float) : float :=
  match a, b with
  | Fin x, Fin y => Fin (x + y)
  | _, _ => NaN
  end.

Definition fsub (a b : float) : float :=
  match a, b with
  | Fin x, Fin y => Fin (x - y)
  | _, _ => NaN
  end.

Definition of_Z (z : Z) : float := Fin (inject_Z z).

Arguments fadd : simpl never.
Arguments fsub : simpl never.
Arguments fmul : simpl never.

(** One column of a [4 x N] array. *)
Record quat : Type := Quat { q0 : float; q1 : float; q2 : float; q3 : float }.

(** ** Exceptions, traces and the [run] monad *)

Inductive exn : Type :=
| RuntimeError (msg : string)
| AttributeError (msg : string)
| IndexError (msg : string)
| ValueError (msg : string)
| IOError (msg : string)
| AssertionError
| ClusterMethodUnavailableError (args : list string).

(** Arguments of a [logger.info] format string. [ArgOpaque] stands for a
    value the embedding does not track: a reading of [time.clock()], the
    number of processors, a list of hkls printed as text. *)
Inductive logarg : Type :=
| ArgInt (z : Z)
| ArgNum (x : float)
| ArgStr (s : string)
| ArgOpaque.

(** What a run leaves behind: the [logger.info] calls, the files written,
    and the calls made to collaborators (a registered clustering function,
    the fiber generator, the diffraction simulator). *)
Inductive event : Type :=
| Info (fmt : string) (args : list logarg)
| SaveFile (file : string)
| Call (fn : string).

Inductive outcome (A : Type) : Type :=
| Return (a : A)
| Raise (e : exn)
| OutOfFuel.
Arguments Return {A} a.
Arguments Raise {A} e.
Arguments OutOfFuel {A}.

Definition run (A : Type) : Type := (list event * outcome A)%type.

Definition trace {A} (m : run A) : list event := fst m.
Definition result {A} (m : run A) : outcome A := snd m.

#[global] Instance outcome_ret : MRet outcome := λ A a, Return a.
#[global] Instance outcome_bind : MBind outcome := λ A B f m,
  match m with
  | Return a => f a
  | Raise e => Raise e
  | OutOfFuel => OutOfFuel
  end.

#[global] Instance run_ret : MRet run := λ A a, ([], Return a).
#[global] Instance run_bind : MBind run := λ A B f m,
  match m with
  | (t, Return a) => let '(t', r) := f a in (t ++ t', r)
  | (t, Raise e) => (t, Raise e)
  | (t, OutOfFuel) => (t, OutOfFuel)
  end.
#[global] Instance run_throw : MThrow exn run := λ A e, ([], Raise e).

Definition emit (ev : event) : run unit := ([ev], Return tt).
Definition logger_info (fmt : string) (args : list logarg) : run unit :=
  emit (Info fmt args).
Definition lift {A} (o : outcome A) : run A := ([], o).
Definition out_of_fuel {A} : run A := ([], OutOfFuel).

(** ** numpy helpers *)

(** [sum(np.array(compl) > min_compl)] *)
Definition above (min_compl : float) (compl : list float) : list bool :=
  map (λ c, float_gt c min_compl) compl.

Definition count_true (mask : list bool) : nat :=
  length (filter (λ b, b = true) mask).

Fixpoint select {A} (mask : list bool) (cols : list A) : list A :=
  match mask, cols with
  | b :: mask', c :: cols' => if b then c :: select mask' cols' else select mask' cols'
  | _, _ => []
  end.

(** [a[:, mask]]: boolean indexing along the second axis; the mask must be
    as long as the axis. *)
Definition bool_index {A} (cols : list A) (mask : list bool) : outcome (list A) :=
  if decide (length mask = length cols) then Return (select mask cols)
  else Raise (IndexError "boolean index did not match indexed array along dimension 1").

(** [np.unique]: the sorted distinct values. *)
Fixpoint insert_unique (x : Z) (l : list Z) : list Z :=
  match l with
  | [] => [x]
  | y :: l' =>
      if x <? y then x :: l
      else if x =? y then l
      else y :: insert_unique x l'
  end.

Definition np_unique (l : list Z) : list Z := foldr insert_unique [] l.

(** ** The clustering registry *)

(** Distance used by a clustering backend. *)
Inductive metric : Type :=
| Euclidean
| Precomputed
| QuatDistance (qsym : list quat).

(** The modules [findorientations] imports its numerics from, and the two
    flags set by the optional imports at the top of the file. *)
Class Libraries : Type := {
  have_sklearn : bool;
  have_parallel_dbscan : bool;
  np_sin : float → float;
  np_radians : float → float;
  (** [xfcapi.homochoricOfQuat] *)
  homochoricOfQuat : list quat → list (list float);
  (** [sklearn.metrics.pairwise.pairwise_distances(X, metric, n_jobs=1)] *)
  pairwise_distances : list (list float) → metric → list (list float);
  (** [sklearn.cluster.dbscan(X, eps, min_samples, metric)[1]] *)
  sklearn_dbscan : list (list float) → float → option float → metric → list Z;
  (** [parallel_dbscan.omp_dbscan(X, eps, min_samples)] *)
  omp_dbscan : list (list float) → float → option float → list Z;
  (** [scipy.cluster.hierarchy.fclusterdata(X, t, criterion='distance', metric)] *)
  fclusterdata : list (list float) → float → metric → list Z;
  (** [rot.quatAverage(quats, qsym).flatten()] *)
  quatAverage : list quat → list quat → quat;
}.

(** What the code relies on from the clustering backends: dbscan labels
    noise with -1 and clusters from 0, [fclusterdata] numbers its flat
    clusters from 1. *)
Class LabelConventions (L : Libraries) : Prop := {
  sklearn_dbscan_labels X eps ms m : Forall (λ l, -1 ≤ l) (sklearn_dbscan X eps ms m);
  omp_dbscan_labels X eps ms : Forall (λ l, -1 ≤ l) (omp_dbscan X eps ms);
  fclusterdata_labels X t m : Forall (λ l, 1 ≤ l) (fclusterdata X t m);
}.

Definition cluster_fn : Type :=
  list quat → list quat → float → option float → outcome (list Z).

Record _clustering_option : Type :=
  { fn : cluster_fn; fallback : option string }.

(** The decorator [clustering_algorithm(key, fallback)] applied to [fn]:
    it asserts that the key is free and adds the entry. *)
Definition clustering_algorithm (key : string) (fallback : option string)
    (fn : cluster_fn) (d : gmap string _clustering_option)
    : outcome (gmap string _clustering_option) :=
  match d !! key with
  | Some _ => Raise AssertionError
  | None => Return (<[key := {| fn := fn; fallback := fallback |}]> d)
  end.

(** [qfib_r[1:, :].T] *)
Definition quaternion_im (qfib_r : list quat) : list (list float) :=
  map (λ q, [q1 q; q2 q; q3 q]) qfib_r.

(** [qfib_r.T] *)
Definition transpose (qfib_r : list quat) : list (list float) :=
  map (λ q, [q0 q; q1 q; q2 q; q3 q]) qfib_r.

(** [labels.astype(int, copy=False) + 1] *)
Definition plus_one (labels : list Z) : list Z := map (λ l, l + 1) labels.

Definition sklearn_missing : exn :=
  ClusterMethodUnavailableError ["required module sklearn >= 0.14 not found."].
Definition parallel_dbscan_missing : exn :=
  ClusterMethodUnavailableError ["required module parallel_dbscan not found."].

Section Strategies.
Context {L : Libraries}.

Definition cluster_quaternion_im_dbscan : cluster_fn :=
  λ qfib_r qsym cl_radius min_samples,
  if negb have_sklearn then Raise sklearn_missing
  else
    let labels :=
      sklearn_dbscan (quaternion_im qfib_r)
        (np_sin (fmul (Fin (1 # 2)) (np_radians cl_radius)))
        min_samples Euclidean in
    Return (plus_one labels).

Definition cluster_parallel_dbscan : cluster_fn :=
  λ qfib_r qsym cl_radius min_samples,
  if negb have_parallel_dbscan then Raise parallel_dbscan_missing
  else
    let homochoric_coords := homochoricOfQuat qfib_r in
    let labels := omp_dbscan homochoric_coords (np_radians cl_radius) min_samples in
    Return (plus_one labels).

Definition cluster_homochoric_dbscan : cluster_fn :=
  λ qfib_r qsym cl_radius min_samples,
  if negb have_sklearn then Raise sklearn_missing
  else
    let homochoric_coords := homochoricOfQuat qfib_r in
    let labels :=
      sklearn_dbscan homochoric_coords (np_radians cl_radius) min_samples Euclidean in
    Return (plus_one labels).

Definition cluster_fcluster : cluster_fn :=
  λ qfib_r qsym cl_radius min_samples,
  let cl := fclusterdata (transpose qfib_r) (np_radians cl_radius) (QuatDistance qsym) in
  Return cl.

Definition cluster_qim_fclusterdata : cluster_fn :=
  λ qfib_r qym cl_radius min_samples,
  if negb have_sklearn then Raise sklearn_missing
  else
    let labels :=
      fclusterdata (quaternion_im qfib_r)
        (np_sin (fmul (Fin (1 # 2)) (np_radians cl_radius))) Euclidean in
    Return (plus_one labels).

Definition cluster_dbscan : cluster_fn :=
  λ qfib_r qsym cl_radius min_samples,
  if negb have_sklearn then Raise sklearn_missing
  else
    let pdist := pairwise_distances (transpose qfib_r) (QuatDistance qsym) in
    let labels := sklearn_dbscan pdist (np_radians cl_radius) min_samples Precomputed in
    Return (plus_one labels).

(** The module body: the six decorated definitions, in order. *)
Definition load_module : outcome (gmap string _clustering_option) :=
  d ← clustering_algorithm "qim-dbscan" None cluster_quaternion_im_dbscan ∅;
  d ← clustering_algorithm "omp-dbscan" (Some "homochoric-dbscan") cluster_parallel_dbscan d;
  d ← clustering_algorithm "homochoric-dbscan" (Some "dbscan") cluster_homochoric_dbscan d;
  d ← clustering_algorithm "fclusterdata" None cluster_fcluster d;
  d ← clustering_algorithm "qim-fclusterdata" (Some "fclusterdata") cluster_qim_fclusterdata d;
  clustering_algorithm "dbscan" (Some "fclusterdata") cluster_dbscan d.

(** [_clustering_algorithm_dict] once the module is loaded. *)
Definition _clustering_algorithm_dict : gmap string _clustering_option :=
  <["dbscan" := {| fn := cluster_dbscan; fallback := Some "fclusterdata" |}]>
  (<["qim-fclusterdata" := {| fn := cluster_qim_fclusterdata; fallback := Some "fclusterdata" |}]>
  (<["fclusterdata" := {| fn := cluster_fcluster; fallback := None |}]>
  (<["homochoric-dbscan" := {| fn := cluster_homochoric_dbscan; fallback := Some "dbscan" |}]>
  (<["omp-dbscan" := {| fn := cluster_parallel_dbscan; fallback := Some "homochoric-dbscan" |}]>
  (<["qim-dbscan" := {| fn := cluster_quaternion_im_dbscan; fallback := None |}]> ∅))))).
End Strategies.

(** ** Centroids *)

Definition zero_quat : quat := Quat (Fin 0) (Fin 0) (Fin 0) (Fin 0).

(** [enumerate(l)], counting from [start]. *)
Fixpoint enumerate_from {A} (start : nat) (l : list A) : list (nat * A) :=
  match l with
  | [] => []
  | x :: l' => (start, x) :: enumerate_from (S start) l'
  end.

(** [cl == cl_id], element by element. *)
Definition eq_mask (cl : list Z) (cl_id : Z) : list bool :=
  map (λ c, c =? cl_id) cl.

Section Centroids.
Context {L : Libraries}.

(** The body of the [for i, cl_id in enumerate(clusters)] loop of
    [compute_centroids], threading the array [qbar] it fills in place. *)
Fixpoint centroid_loop (items : list (nat * Z)) (qfib_r : list quat)
    (cl : list Z) (qsym : list quat) (qbar : list quat) : outcome (list quat) :=
  match items with
  | [] => Return qbar
  | (i, cl_id) :: items' =>
      quats_in_cluster ← bool_index qfib_r (eq_mask cl cl_id);
      centroid_loop items' qfib_r cl qsym
        (<[i := quatAverage quats_in_cluster qsym]> qbar)
  end.

Definition compute_centroids (qfib_r : list quat) (cl : list Z)
    (qsym : list quat) : outcome (list quat) :=
  match np_unique cl with
  | [] => Raise (IndexError "index 0 is out of bounds for axis 0 with size 0")
  | c0 :: rest =>
      if c0 <? 0 then Raise AssertionError
      else
        let clusters := if c0 =? 0 then rest else c0 :: rest in
        let qbar := replicate (length clusters) zero_quat in
        centroid_loop (enumerate_from 0 clusters) qfib_r cl qsym qbar
  end.
End Centroids.

(** ** Dispatch: [run_cluster] *)

(** The part of [cfg] that [run_cluster] and [find_orientations] read. *)
Record config : Type := {
  (** [cfg.find_orientations.clustering.algorithm] *)
  cfg_algorithm : string;
  (** [cfg.find_orientations.clustering.radius] *)
  cfg_radius : float;
  (** [cfg.find_orientations.clustering.completeness] *)
  cfg_completeness : float;
  cfg_working_dir : string;
  (** [cfg.find_orientations.use_quaternion_grid]; reading it may raise *)
  cfg_use_quaternion_grid : outcome string;
  (** [cfg.find_orientations.seed_search.hkl_seeds] *)
  cfg_hkl_seeds : list nat;
  (** [cfg.find_orientations.seed_search.fiber_ndiv] *)
  cfg_fiber_ndiv : nat;
  (** [cfg.find_orientations.threshold] *)
  cfg_threshold : float;
  (** [cfg.find_orientations.orientation_maps.file] *)
  cfg_maps_file : string;
  cfg_analysis_name : string;
  (** [cfg.multiprocessing] *)
  cfg_multiprocessing : Z;
}.

(** Attribute lookup on an instance of [ClusterMethodUnavailableError].
    The class body is [pass], so an instance has the attributes of
    [Exception] and no others: [args], and [message], which holds the
    argument when there is exactly one. *)
Inductive pyvalue : Type :=
| PyStr (s : string)
| PyTuple (items : list string).

Definition getattr (args : list string) (name : string) : outcome pyvalue :=
  if decide (name = "args") then Return (PyTuple args)
  else if decide (name = "message") then
    Return (PyStr (match args with [s] => s | _ => "" end))
  else
    Raise (AttributeError
      ("'ClusterMethodUnavailableError' object has no attribute '" +:+ name +:+ "'")).

Definition str_of (v : pyvalue) : string :=
  match v with
  | PyStr s => s
  | PyTuple items => "(" +:+ String.concat ", " items +:+ ")"
  end.

Definition os_path_join (dir file : string) : string := dir +:+ "/" +:+ file.

Section Dispatch.
Context {L : Libraries}.
Variable cl_dict : gmap string _clustering_option.

(** The [while algorithm is not None] loop. One unit of fuel is one
    iteration; the loop ends when a strategy returns, and goes round again
    with the fallback's name. *)
Fixpoint dispatch (fuel : nat) (algorithm : string) (qfib_r qsym : list quat)
    (cl_radius : float) (min_samples : option float) : run (list Z) :=
  match fuel with
  | O => out_of_fuel
  | S fuel' =>
      match cl_dict !! algorithm with
      | None =>
          mthrow (RuntimeError ("Clustering '" +:+ algorithm +:+ "' not recognized"))
      | Some entry =>
          logger_info "Trying '%s' over %d orientations"
            [ArgStr algorithm; ArgInt (Z.of_nat (length qfib_r))];;
          emit (Call algorithm);;
          match fn entry qfib_r qsym cl_radius min_samples with
          | Return cl => mret cl
          | Raise (ClusterMethodUnavailableError args) =>
              msg ← lift (getattr args "msg");
              logger_info (str_of msg) [];;
              match fallback entry with
              | None =>
                  mthrow (RuntimeError
                    ("Clustering '" +:+ algorithm +:+ "' failed, no fallback."))
              | Some fb =>
                  logger_info
                    ("Clustering '" +:+ algorithm +:+ "' failed, trying '" +:+ fb +:+ "'.") [];;
                  dispatch fuel' fb qfib_r qsym cl_radius min_samples
              end
          | Raise e => mthrow e
          | OutOfFuel => out_of_fuel
          end
      end
  end.

Definition run_cluster (fuel : nat) (compl : list float) (qfib qsym : list quat)
    (cfg : config) (min_samples compl_thresh radius : option float)
    : run (list quat * list Z) :=
  let algorithm := cfg_algorithm cfg in
  let cl_radius := default (cfg_radius cfg) radius in
  let min_compl := default (cfg_completeness cfg) compl_thresh in
  let mask := above min_compl compl in
  '(qbar, cl) ←
    match count_true mask with
    | 0%nat => mret ([], [])
    | 1%nat =>
        qbar ← lift (bool_index qfib mask);
        mret (qbar, [1])
    | _ =>
        qfib_r ← lift (bool_index qfib mask);
        logger_info "Feeding %d orientations above %.1f%% to clustering"
          [ArgInt (Z.of_nat (length qfib_r)); ArgNum (fmul (of_Z 100) min_compl)];;
        cl ← dispatch fuel algorithm qfib_r qsym cl_radius min_samples;
        logger_info "clustering done in %f seconds, computing centroids" [ArgOpaque];;
        emit (SaveFile (os_path_join (cfg_working_dir cfg) "clusters.dat"));;
        qbar ← lift (compute_centroids qfib_r cl qsym);
        mret (qbar, cl)
    end;
  logger_info "clustering took %f seconds" [ArgOpaque];;
  logger_info
    "Found %d orientation clusters with >=%.1f%% completeness and %2f misorientation"
    [ArgInt (Z.of_nat (length qbar)); ArgNum (fmul (of_Z 100) min_compl); ArgNum cl_radius];;
  mret (qbar, cl).
End Dispatch.

(** ** Fiber generation *)

Definition image : Type := list (list float).
Definition labelling : Type := list (list nat).

(** [pd]: the crystallographic data the functions read. *)
Record plane_data : Type := {
  (** [pd.getTTh()] *)
  getTTh : list float;
  (** the ['hklID'] of each entry of [pd.hklDataList] *)
  hklDataList : list Z;
  (** [pd.getQSym()] *)
  getQSym : list quat;
}.

Record eta_ome_maps : Type := {
  dataStore : list image;
  iHKLList : list nat;
  omegas : list float;
  etas : list float;
  omeEdges : list float;
  etaEdges : list float;
  planeData : plane_data;
}.

(** The image processing and the rotation library behind the fibers. *)
Class FiberLibraries : Type := {
  (** [ndimage.label(mask, structureNDI_label)]: the labels and their number *)
  ndimage_label : list (list bool) → labelling * nat;
  np_amax : labelling → nat;
  (** [ndimage.center_of_mass(input, labels, index)]: a centre per index *)
  center_of_mass : image → labelling → list nat → list (float * float);
  (** [mutil.uniqueVectors(rot.discreteFiber(pd.hkls[:, id], anglesToGVec
      ([tTh, eta_c, ome_c]).T, B, ndiv, False, csym)[0])] for the
      reflection [id] of [pd] *)
  discrete_fiber : plane_data → nat → float → float → float → nat → list quat;
  (** what [np.empty] leaves in a fresh array *)
  uninitialized : quat;
}.

(** What the code relies on from them: [label] numbers the blobs from 1 to
    their count, [center_of_mass] answers once per index, and a fiber
    discretized in [ndiv] steps has at most [ndiv] distinct quaternions. *)
Class FiberConventions (F : FiberLibraries) : Prop := {
  amax_label mask : np_amax (ndimage_label mask).1 = (ndimage_label mask).2;
  center_of_mass_length img labels index :
    length (center_of_mass img labels index) = length index;
  discrete_fiber_length pd id tth eta ome ndiv :
    (length (discrete_fiber pd id tth eta ome ndiv) ≤ ndiv)%nat;
}.

(** [a[i]] on a Python list or a numpy axis. *)
Definition index {A} (a : list A) (i : nat) : outcome A :=
  match a !! i with
  | Some x => Return x
  | None => Raise (IndexError "index out of range")
  end.

(** [a[ids]] with a list of indices. *)
Fixpoint fancy_index {A} (a : list A) (ids : list nat) : outcome (list A) :=
  match ids with
  | [] => Return []
  | i :: ids' => x ← index a i; xs ← fancy_index a ids'; Return (x :: xs)
  end.

(** [np.atleast_2d] of a list of rows: no row at all is one empty row. *)
Definition atleast_2d (rows : list (float * float)) : list (list float) :=
  match rows with
  | [] => [[]]
  | _ => map (λ r, [r.1; r.2]) rows
  end.

(** [buf[:, ii:jj] = tmp] with [jj = ii + tmp.shape[1]]. A slice that runs
    past the end of [buf] is clipped, and the assignment then fails unless
    [tmp] has a single column, which broadcasts onto the (empty) slice. *)
Definition slice_assign (buf : list quat) (ii : nat) (tmp : list quat)
    : outcome (list quat) :=
  let jj := (ii + length tmp)%nat in
  if decide (jj ≤ length buf)%nat then Return (take ii buf ++ tmp ++ drop jj buf)
  else if decide (length tmp = 1%nat ∧ length buf ≤ ii)%nat then Return buf
  else Raise (ValueError "could not broadcast input array").

(** [np.hstack] *)
Definition np_hstack (arrays : list (list quat)) : outcome (list quat) :=
  match arrays with
  | [] => Raise (ValueError "need at least one array to concatenate")
  | _ => Return (concat arrays)
  end.

Definition binarize (img : image) (threshold : float) : list (list bool) :=
  map (map (λ x, float_gt x threshold)) img.

Section Fibers.
Context {F : FiberLibraries}.

(** First loop: label the spots of each seed map and take their centres. *)
Fixpoint label_spots (eta_ome : eta_ome_maps) (threshold : float)
    (seed_hkl_ids : list nat) : outcome (list (nat * list (list float))) :=
  match seed_hkl_ids with
  | [] => Return []
  | i :: rest =>
      img ← index (dataStore eta_ome) i;
      let '(labels_t, numSpots_t) := ndimage_label (binarize img threshold) in
      let coms_t :=
        atleast_2d (center_of_mass img labels_t (seq 1 (np_amax labels_t))) in
      spots ← label_spots eta_ome threshold rest;
      Return ((numSpots_t, coms_t) :: spots)
  end.

(** The [for ispot in range(numSpots[i])] loop over the spots of one
    reflection: the buffer [qfib_tmp] and the write position [ii]. *)
Fixpoint spot_loop (eta_ome : eta_ome_maps) (fiber_ndiv : nat) (pd_hkl_id : nat)
    (del_ome del_eta : float) (coms_i : list (list float)) (ispots : list nat)
    (qfib_tmp : list quat) (ii : nat) : outcome (list quat * nat) :=
  match ispots with
  | [] => Return (qfib_tmp, ii)
  | ispot :: rest =>
      com ← index coms_i ispot;
      com0 ← index com 0;
      if negb (isnan com0) then
        ome0 ← index (omeEdges eta_ome) 0;
        let ome_c := fadd ome0 (fmul (fadd (Fin (1 # 2)) com0) del_ome) in
        eta0 ← index (etaEdges eta_ome) 0;
        com1 ← index com 1;
        let eta_c := fadd eta0 (fmul (fadd (Fin (1 # 2)) com1) del_eta) in
        tth ← index (getTTh (planeData eta_ome)) pd_hkl_id;
        let tmp :=
          discrete_fiber (planeData eta_ome) pd_hkl_id tth eta_c ome_c fiber_ndiv in
        qfib_tmp' ← slice_assign qfib_tmp ii tmp;
        spot_loop eta_ome fiber_ndiv pd_hkl_id del_ome del_eta coms_i rest
          qfib_tmp' (ii + length tmp)
      else
        spot_loop eta_ome fiber_ndiv pd_hkl_id del_ome del_eta coms_i rest
          qfib_tmp ii
  end.

(** Second loop: one block of fibers per seed reflection. *)
Fixpoint fiber_loop (eta_ome : eta_ome_maps) (fiber_ndiv : nat)
    (del_ome del_eta : float) (pd_hkl_ids : list nat)
    (spots : list (nat * list (list float))) (idxs : list nat)
    : outcome (list (list quat)) :=
  match idxs with
  | [] => Return []
  | i :: rest =>
      pd_hkl_id ← index pd_hkl_ids i;
      '(numSpots_i, coms_i) ← index spots i;
      let qfib_tmp := replicate (fiber_ndiv * numSpots_i) uninitialized in
      '(qfib_tmp, ii) ←
        spot_loop eta_ome fiber_ndiv pd_hkl_id del_ome del_eta coms_i
          (seq 0 numSpots_i) qfib_tmp 0;
      qfib ← fiber_loop eta_ome fiber_ndiv del_ome del_eta pd_hkl_ids spots rest;
      Return (take ii qfib_tmp :: qfib)
  end.

Definition generate_orientation_fibers (eta_ome : eta_ome_maps)
    (threshold : float) (seed_hkl_ids : list nat) (fiber_ndiv : nat)
    : outcome (list quat) :=
  pd_hkl_ids ← fancy_index (iHKLList eta_ome) seed_hkl_ids;
  ome1 ← index (omegas eta_ome) 1;
  ome0 ← index (omegas eta_ome) 0;
  let del_ome := fsub ome1 ome0 in
  eta1 ← index (etas eta_ome) 1;
  eta0 ← index (etas eta_ome) 0;
  let del_eta := fsub eta1 eta0 in
  spots ← label_spots eta_ome threshold seed_hkl_ids;
  qfib ← fiber_loop eta_ome fiber_ndiv del_ome del_eta pd_hkl_ids spots
            (seq 0 (length pd_hkl_ids));
  np_hstack qfib.
End Fibers.

(** ** The orchestrator: [find_orientations] *)

(** The collaborators of [find_orientations]. *)
Class Collaborators : Type := {
  (** the plane data of [initialize_experiment(cfg)] *)
  initialize_experiment : config → plane_data;
  (** [load_eta_ome_maps(cfg, pd, reader, detector, hkls, clean)] *)
  load_eta_ome_maps : config → eta_ome_maps;
  (** [np.loadtxt(f).T] *)
  np_loadtxt : string → outcome (list quat);
  (** [idx.paintGrid(quats, eta_ome, ...)] *)
  paintGrid : list quat → eta_ome_maps → config → list float;
  (** the hkl ids [xrdutil.simulateGVecs(pd, detector_params, grain_params,
      ...)[0]] of the [i]-th random grain, [rand_e[:, i]] *)
  simulateGVecs : nat → list Z;
}.

Definition np_sum (a : list Z) : Z := foldr Z.add 0 a.

(** [np.average] of an array of counts. *)
Definition np_average (a : list Z) : float :=
  match a with
  | [] => NaN
  | _ => Fin (inject_Z (np_sum a) / inject_Z (Z.of_nat (length a)))
  end.

Definition np_floor (x : float) : float :=
  match x with
  | Fin q => of_Z (Qfloor q)
  | NaN => NaN
  end.

(** Rounding to the nearest integer, a tie going to the even one. *)
Definition round_half_even (q : Q) : Z :=
  let f := Qfloor q in
  match ((q - inject_Z f) ?= (1 # 2))%Q with
  | Lt => f
  | Gt => f + 1
  | Eq => if Z.even f then f else f + 1
  end.

Definition np_round (x : float) : float :=
  match x with
  | Fin q => of_Z (round_half_even q)
  | NaN => NaN
  end.

(** [int(x)]: truncation towards zero. *)
Definition int (x : float) : outcome Z :=
  match x with
  | Fin q => Return (Z.quot (Qnum q) (Zpos (Qden q)))
  | NaN => Raise (ValueError "cannot convert float NaN to integer")
  end.

(** [max(a, b)] of two arguments: [b] only when it is greater. *)
Definition py_max (a b : float) : float := if float_gt b a then b else a.

(** [sum(sim == hkl_id)] *)
Definition count_eq (sim : list Z) (hkl_id : Z) : Z :=
  Z.of_nat (length (filter (λ h, h = hkl_id) sim)).

Section Orchestrator.
Context {L : Libraries} {F : FiberLibraries} {W : Collaborators}.

(** The [for i in range(ngrains)] loop: one simulated grain per turn,
    filling [refl_per_grain] and [num_seed_refls] in place. *)
Fixpoint grain_loop (grains : list nat) (hkl_ids : list Z)
    (refl_per_grain num_seed_refls : list Z) : run (list Z * list Z) :=
  match grains with
  | [] => mret (refl_per_grain, num_seed_refls)
  | i :: rest =>
      emit (Call "simulateGVecs");;
      let sim_results := simulateGVecs i in
      let refl_per_grain := <[i := Z.of_nat (length sim_results)]> refl_per_grain in
      let num_seed_refls :=
        <[i := np_sum (map (count_eq sim_results) hkl_ids)]> num_seed_refls in
      grain_loop rest hkl_ids refl_per_grain num_seed_refls
  end.

(** The block under [if hkl_ids is not None]: simulate [ngrains] random
    grains and derive [(min_samples, mean_rpg)]. *)
Definition neighborhood_size (cfg : config) (hkl_ids : list Z) : run (float * Z) :=
  let ngrains := 100%nat in
  '(refl_per_grain, num_seed_refls) ←
    grain_loop (seq 0 ngrains) hkl_ids (replicate ngrains 0) (replicate ngrains 0);
  let cfg_completeness := cfg_completeness cfg in
  let min_samples :=
    py_max (fmul cfg_completeness (np_floor (np_average num_seed_refls))) (of_Z 2) in
  mean_rpg ← lift (int (np_round (np_average refl_per_grain)));
  mret (min_samples, mean_rpg).

(** The [except (IOError, ValueError)] branch: the seeded search. *)
Definition seeded_search (cfg : config) (eta_ome : eta_ome_maps)
    : run (list quat * option (list Z)) :=
  logger_info "Defaulting to seeded search" [];;
  let hkl_seeds := cfg_hkl_seeds cfg in
  hkl_ids ← lift (fancy_index (hklDataList (planeData eta_ome)) hkl_seeds);
  logger_info "Seeding search using hkls from %s: %s"
    [ArgStr (cfg_maps_file cfg); ArgOpaque];;
  emit (Call "generate_orientation_fibers");;
  quats ← lift (generate_orientation_fibers eta_ome (cfg_threshold cfg)
                  hkl_seeds (cfg_fiber_ndiv cfg));
  mret (quats, Some hkl_ids).

(** The [try] block and its handler: the trial orientations and, for a
    seeded search, the ids of the seed reflections. *)
Definition select_search_mode (cfg : config) (eta_ome : eta_ome_maps)
    : run (list quat * option (list Z)) :=
  match qgrid_f ← cfg_use_quaternion_grid cfg;
        quats ← np_loadtxt qgrid_f;
        Return (qgrid_f, quats) with
  | Return (qgrid_f, quats) =>
      logger_info "Using %s for full quaternion search" [ArgStr qgrid_f];;
      mret (quats, None)
  | Raise (IOError _) | Raise (ValueError _) => seeded_search cfg eta_ome
  | Raise e => mthrow e
  | OutOfFuel => out_of_fuel
  end.

Definition find_orientations (fuel : nat) (cfg : config) (profile : bool) : run unit :=
  let pd := initialize_experiment cfg in
  logger_info "beginning analysis '%s'" [ArgStr (cfg_analysis_name cfg)];;
  let eta_ome := load_eta_ome_maps cfg in
  '(quats, hkl_ids) ← select_search_mode cfg eta_ome;
  logger_info "Running paintgrid on %d trial orientations"
    [ArgInt (Z.of_nat (length quats))];;
  (if profile then logger_info "Profiling mode active, forcing ncpus to 1" []
   else logger_info "%d of %d available processors requested"
          [ArgInt (cfg_multiprocessing cfg); ArgOpaque]);;
  let compl := paintGrid quats eta_ome cfg in
  emit (SaveFile (os_path_join (cfg_working_dir cfg) "scored_orientations.npy"));;
  '(min_samples, mean_rpg) ←
    match hkl_ids with
    | Some hkl_ids => neighborhood_size cfg hkl_ids
    | None => mret (of_Z 1, 1)
    end;
  logger_info "mean number of reflections per grain is %d" [ArgInt mean_rpg];;
  logger_info "neighborhood size estimate is %d points" [ArgNum min_samples];;
  '(qbar, cl) ← run_cluster _clustering_algorithm_dict fuel compl quats (getQSym pd) cfg
                  (Some min_samples) None None;
  emit (SaveFile (os_path_join (cfg_working_dir cfg) "accepted_orientations.dat"));;
  mret tt.
End Orchestrator.

(** ** Vocabulary of the statements *)

(** The names of the collaborators called during a run, in order. *)
Definition calls (t : list event) : list string :=
  omap (λ ev, match ev with Call f => Some f | _ => None end) t.

(** [cfg] with another clustering algorithm configured. *)
Definition with_algorithm (algorithm : string) (cfg : config) : config :=
  {| cfg_algorithm := algorithm;
     cfg_radius := cfg_radius cfg;
     cfg_completeness := cfg_completeness cfg;
     cfg_working_dir := cfg_working_dir cfg;
     cfg_use_quaternion_grid := cfg_use_quaternion_grid cfg;
     cfg_hkl_seeds := cfg_hkl_seeds cfg;
     cfg_fiber_ndiv := cfg_fiber_ndiv cfg;
     cfg_threshold := cfg_threshold cfg;
     cfg_maps_file := cfg_maps_file cfg;
     cfg_analysis_name := cfg_analysis_name cfg;
     cfg_multiprocessing := cfg_multiprocessing cfg |}.

(** The completeness threshold in force: the override when given. *)
Definition threshold_of (cfg : config) (compl_thresh : option float) : float :=
  default (cfg_completeness cfg) compl_thresh.

(** The members of cluster [cl_id]: the orientations paired with that id. *)
Definition members (qfib_r : list quat) (cl : list Z) (cl_id : Z) : list quat :=
  (filter (λ p, p.2 = cl_id) (zip qfib_r cl)).*1.

(** What [run_cluster] logs on its way out, for [n] centroids. *)
Definition closing_log (cfg : config) (compl_thresh radius : option float)
    (n : nat) : list event :=
  [Info "clustering took %f seconds" [ArgOpaque];
   Info "Found %d orientation clusters with >=%.1f%% completeness and %2f misorientation"
     [ArgInt (Z.of_nat n); ArgNum (fmul (of_Z 100) (threshold_of cfg compl_thresh));
      ArgNum (default (cfg_radius cfg) radius)]].

(** ** A small concrete setting on which the statements are exercised *)

Module Sample.

(** Backends that label by position: dbscan calls the first point noise
    and puts the others in cluster 0; [fclusterdata] makes one cluster. *)
Definition libraries (sklearn parallel : bool) : Libraries := {|
  have_sklearn := sklearn;
  have_parallel_dbscan := parallel;
  np_sin := id;
  np_radians := id;
  homochoricOfQuat := quaternion_im;
  pairwise_distances := λ X _, X;
  sklearn_dbscan := λ X _ _ _,
    match X with [] => [] | _ :: X' => (-1) :: map (λ _, 0) X' end;
  omp_dbscan := λ X _ _, map (λ _, 0) X;
  fclusterdata := λ X _ _, map (λ _, 1) X;
  quatAverage := λ quats _, hd zero_quat quats;
|}.

Definition cfg (algorithm : string) : config := {|
  cfg_algorithm := algorithm;
  cfg_radius := of_Z 1;
  cfg_completeness := Fin (7 # 10);
  cfg_working_dir := "work";
  cfg_use_quaternion_grid := Raise (IOError "no grid file");
  cfg_hkl_seeds := [0%nat];
  cfg_fiber_ndiv := 2;
  cfg_threshold := of_Z 1;
  cfg_maps_file := "maps.cpl";
  cfg_analysis_name := "analysis";
  cfg_multiprocessing := 1;
|}.

Definition qa : quat := Quat (of_Z 1) (of_Z 0) (of_Z 0) (of_Z 0).
Definition qb : quat := Quat (of_Z 0) (of_Z 1) (of_Z 0) (of_Z 0).
Definition qc : quat := Quat (of_Z 0) (of_Z 0) (of_Z 1) (of_Z 0).

(** Blob labelling by rows: every row with a pixel above the threshold is
    one blob, numbered from 1 downwards through the image. *)
Fixpoint label_rows (k : nat) (mask : list (list bool)) : labelling * nat :=
  match mask with
  | [] => ([], k)
  | row :: mask' =>
      if existsb id row then
        let '(labels, n) := label_rows (S k) mask' in
        (map (λ b : bool, if b then S k else 0%nat) row :: labels, n)
      else
        let '(labels, n) := label_rows k mask' in
        (map (λ _, 0%nat) row :: labels, n)
  end.

Definition amax (labels : labelling) : nat :=
  foldr (λ row m, Nat.max (foldr Nat.max 0%nat row) m) 0%nat labels.

(** Blobs with an even label have an undefined centre; a fiber holds the
    angles it was asked for, then [qa]. *)
Definition fiber_libraries : FiberLibraries := {|
  ndimage_label := label_rows 0;
  np_amax := amax;
  center_of_mass := λ _ _ index,
    map (λ k, if Nat.even k then (NaN, NaN)
              else (of_Z (Z.of_nat k), Fin (1 # 2))) index;
  discrete_fiber := λ _ id tth eta ome ndiv,
    take ndiv [Quat tth eta ome (of_Z (Z.of_nat id)); qa];
  uninitialized := zero_quat;
|}.

Definition pd : plane_data := {|
  getTTh := [Fin (1 # 10); Fin (2 # 10)];
  hklDataList := [10; 11];
  getQSym := [];
|}.

(** One map per reflection. In the first, rows 0 and 2 are bright: two
    blobs, the second with an undefined centre. The second map is dark. *)
Definition eta_ome : eta_ome_maps := {|
  dataStore :=
    [[[of_Z 5; of_Z 0]; [of_Z 0; of_Z 0]; [of_Z 0; of_Z 7]];
     [[of_Z 0; of_Z 0]; [of_Z 0; of_Z 0]; [of_Z 0; of_Z 0]]];
  iHKLList := [0%nat; 1%nat];
  omegas := [Fin (1 # 8); Fin (3 # 8); Fin (5 # 8)];
  etas := [Fin (1 # 4); Fin (3 # 4)];
  omeEdges := [of_Z 0; Fin (1 # 4); Fin (1 # 2); Fin (3 # 4)];
  etaEdges := [of_Z 0; Fin (1 # 2); of_Z 1];
  planeData := pd;
|}.

(** Collaborators: a grid file that exists under one name only, a scorer
    that finds every orientation complete, and a simulator whose grains
    alternate between four reflections and two. *)
Definition collaborators : Collaborators := {|
  initialize_experiment := λ _, pd;
  load_eta_ome_maps := λ _, eta_ome;
  np_loadtxt := λ f,
    if String.eqb f "grid.txt" then Return [qa; qb; qc]
    else Raise (IOError "no such file");
  paintGrid := λ quats _ _, map (λ _, of_Z 1) quats;
  simulateGVecs := λ i, if Nat.even i then [10; 11; 12; 11] else [10; 12];
|}.

(** [cfg] with a grid file configured. *)
Definition cfg_grid (algorithm file : string) : config := {|
  cfg_algorithm := algorithm;
  cfg_radius := of_Z 1;
  cfg_completeness := Fin (7 # 10);
  cfg_working_dir := "work";
  cfg_use_quaternion_grid := Return file;
  cfg_hkl_seeds := [0%nat];
  cfg_fiber_ndiv := 2;
  cfg_threshold := of_Z 1;
  cfg_maps_file := "maps.cpl";
  cfg_analysis_name := "analysis";
  cfg_multiprocessing := 1;
|}.

End Sample.

(** What one turn of the dispatch loop leaves in the trace before the
    strategy answers. *)
Definition trying (algorithm : string) (qfib_r : list quat) : list event :=
  [Info "Trying '%s' over %d orientations"
     [ArgStr algorithm; ArgInt (Z.of_nat (length qfib_r))];
   Call algorithm].

(** The exception raised by reading [error.msg]. *)
Definition no_msg_attribute : exn :=
  AttributeError "'ClusterMethodUnavailableError' object has no attribute 'msg'".

(** Modelled from the spec: [rot.quatAverage] lives in [hexrd.xrd.rotations],
    outside the file embedded here. Of its behaviour the statements use
    only what the specification says of a cluster of size 1: "trivial
    average equals that member". *)
Class AverageConventions (L : Libraries) : Prop := {
  quatAverage_single q qsym : quatAverage [q] qsym = q;
}.

(** Per simulated grain [i]: the number of reflections simulated, and the
    number of them that carry the id of a seed reflection, counted id by
    id as the code does. *)
Definition total_reflections {W : Collaborators} (i : nat) : Z :=
  Z.of_nat (length (simulateGVecs i)).

Definition seed_reflections {W : Collaborators} (hkl_ids : list Z) (i : nat) : Z :=
  np_sum (map (count_eq (simulateGVecs i)) hkl_ids).

(** The mean of a list of counts, as a rational. *)
Definition mean (counts : list Z) : Q :=
  inject_Z (np_sum counts) / inject_Z (Z.of_nat (length counts)).

(** *** The quaternion pool, stated blob by blob *)

#[global] Instance float_inhabited : Inhabited float := populate NaN.

(** Maps that the code can read: two grid values and one edge per axis,
    and for every seed a map, an entry of [iHKLList] and its Bragg angle. *)
Definition well_formed (eta_ome : eta_ome_maps) (seed_hkl_ids : list nat) : Prop :=
  (2 ≤ length (omegas eta_ome))%nat ∧
  (2 ≤ length (etas eta_ome))%nat ∧
  (1 ≤ length (omeEdges eta_ome))%nat ∧
  (1 ≤ length (etaEdges eta_ome))%nat ∧
  Forall (λ i, (i < length (dataStore eta_ome))%nat ∧
               ∃ id, iHKLList eta_ome !! i = Some id ∧
                     (id < length (getTTh (planeData eta_ome)))%nat)
         seed_hkl_ids.

Section Pool.
Context {F : FiberLibraries}.
Variables (eta_ome : eta_ome_maps) (threshold : float) (fiber_ndiv : nat).

(** The centres of mass of the blobs of seed map [i]. *)
Definition blob_centres (i : nat) : list (float * float) :=
  let img := dataStore eta_ome !!! i in
  let labels_t := (ndimage_label (binarize img threshold)).1 in
  center_of_mass img labels_t (seq 1 (np_amax labels_t)).

(** The entry of [numSpots] and of [coms] for seed map [i]. *)
Definition spots_of (i : nat) : nat * list (list float) :=
  ((ndimage_label (binarize (dataStore eta_ome !!! i) threshold)).2,
   atleast_2d (blob_centres i)).

(** The angles at the centre of a bin, [edge[0] + (0.5 + bin) * spacing]. *)
Definition bin_centre (edges grid : list float) (bin : float) : float :=
  fadd (edges !!! 0%nat)
       (fmul (fadd (Fin (1 # 2)) bin) (fsub (grid !!! 1%nat) (grid !!! 0%nat))).

(** What one blob contributes: nothing when its centre is NaN (the code
    tests the omega coordinate), its discrete fiber otherwise. *)
Definition blob_fiber (pd_hkl_id : nat) (com : float * float) : list quat :=
  if isnan com.1 then []
  else
    discrete_fiber (planeData eta_ome) pd_hkl_id
      (getTTh (planeData eta_ome) !!! pd_hkl_id)
      (bin_centre (etaEdges eta_ome) (etas eta_ome) com.2)
      (bin_centre (omeEdges eta_ome) (omegas eta_ome) com.1)
      fiber_ndiv.

(** What one seed reflection contributes: the fibers of its blobs. *)
Definition seed_fibers (i : nat) : list quat :=
  concat (map (blob_fiber (iHKLList eta_ome !!! i)) (blob_centres i)).

Definition quaternion_pool (seed_hkl_ids : list nat) : list quat :=
  concat (map seed_fibers seed_hkl_ids).
End Pool.

Arguments blob_fiber : simpl never.

(** *** Reading the grid file *)

(** What the [try] block of [find_orientations] evaluates before it logs. *)
Definition load_grid {W : Collaborators} (cfg : config) : outcome (list quat) :=
  qgrid_f ← cfg_use_quaternion_grid cfg; np_loadtxt qgrid_f.

(** The grid file cannot be located or parsed: [IOError] or [ValueError]. *)
Definition grid_unreadable {W : Collaborators} (cfg : config) : Prop :=
  ∃ msg, load_grid cfg = Raise (IOError msg) ∨ load_grid cfg = Raise (ValueError msg).

Arguments mean : simpl never.
Arguments py_max : simpl never.
Arguments round_half_even : simpl never.

(** *** The trace of [find_orientations] around the clustering *)

(** What [find_orientations] leaves in the trace before it calls
    [run_cluster], given the traces of the search and of the estimate. *)
Definition before_clustering (cfg : config) (profile : bool)
    (search estimate : list event) (quats : list quat)
    (mean_rpg : Z) (min_samples : float) : list event :=
  [Info "beginning analysis '%s'" [ArgStr (cfg_analysis_name cfg)]]
  ++ search
  ++ [Info "Running paintgrid on %d trial orientations" [ArgInt (Z.of_nat (length quats))];
      (if profile then Info "Profiling mode active, forcing ncpus to 1" []
       else Info "%d of %d available processors requested"
              [ArgInt (cfg_multiprocessing cfg); ArgOpaque]);
      SaveFile (os_path_join (cfg_working_dir cfg) "scored_orientations.npy")]
  ++ estimate
  ++ [Info "mean number of reflections per grain is %d" [ArgInt mean_rpg];
      Info "neighborhood size estimate is %d points" [ArgNum min_samples]].

(** And after [run_cluster] has returned. *)
Definition after_clustering {A} (cfg : config) (clustered : outcome A) : list event :=
  match clustered with
  | Return _ => [SaveFile (os_path_join (cfg_working_dir cfg) "accepted_orientations.dat")]
  | _ => []
  end.

(** ** Vocabulary of the further properties *)

(** [get_supported_clustering_algorithms()]: the keys of the registry.
    The order of [dict.keys()] is not specified, so they form a set. *)
Definition get_supported_clustering_algorithms {L : Libraries} : gset string :=
  dom _clustering_algorithm_dict.

(** The names reached from [name] by following declared fallbacks, [name]
    first, as the dispatch loop would visit them. *)
Fixpoint fallback_chain (cl_dict : gmap string _clustering_option) (fuel : nat)
    (name : string) : list string :=
  match fuel with
  | O => []
  | S fuel' =>
      match cl_dict !! name with
      | None => []
      | Some entry =>
          name :: match fallback entry with
                  | None => []
                  | Some fb => fallback_chain cl_dict fuel' fb
                  end
      end
  end.

(** The import flag that guards the strategy registered as [name]. *)
Definition guard_flag {L : Libraries} (name : string) : bool :=
  if decide (name = "fclusterdata") then true
  else if decide (name = "omp-dbscan") then have_parallel_dbscan
  else have_sklearn.

(** A clustering backend labels every observation it is given. *)
Class LabelLengths (L : Libraries) : Prop := {
  sklearn_dbscan_length X eps ms m : length (sklearn_dbscan X eps ms m) = length X;
  omp_dbscan_length X eps ms : length (omp_dbscan X eps ms) = length X;
  fclusterdata_length X t m : length (fclusterdata X t m) = length X;
}.

(** The number of simulated reflections of grain [i] that lie on one of
    the seed ids. *)
Definition reflections_on_seeds {W : Collaborators} (hkl_ids : list Z) (i : nat) : nat :=
  length (filter (λ h, h ∈ hkl_ids) (simulateGVecs i)).

(** Membership and distinctness in a list of string literals. *)
Ltac in_names := repeat constructor.
Ltac distinct_names :=
  repeat constructor; rewrite ?elem_of_cons, ?elem_of_nil; intuition discriminate.

(** * Properties *)

(** ** The [run] monad *)

Lemma run_bind_return {A B} (t : list event) (a : A) (f : A → run B) :
  ((t, Return a) : run A) ≫= f = (t ++ (f a).1, (f a).2).
Proof. unfold mbind, run_bind. destruct (f a); reflexivity. Qed.

Lemma run_bind_raise {A B} (t : list event) (e : exn) (f : A → run B) :
  ((t, Raise e) : run A) ≫= f = (t, Raise e).
Proof. reflexivity. Qed.

Lemma run_ret_bind {A B} (a : A) (f : A → run B) :
  (([], Return a) : run A) ≫= f = f a.
Proof. unfold mbind, run_bind. destruct (f a); reflexivity. Qed.

Lemma lift_return_bind {A B} (a : A) (f : A → run B) :
  lift (Return a) ≫= f = f a.
Proof. apply run_ret_bind. Qed.

Lemma calls_app (t1 t2 : list event) : calls (t1 ++ t2) = calls t1 ++ calls t2.
Proof. unfold calls. apply omap_app. Qed.

(** ** Boolean masks *)

Lemma length_above (thr : float) (compl : list float) :
  length (above thr compl) = length compl.
Proof. unfold above. apply length_map. Qed.

Lemma count_true_cons (b : bool) (mask : list bool) :
  count_true (b :: mask) = ((if b then 1 else 0) + count_true mask)%nat.
Proof. unfold count_true. destruct b; simpl; reflexivity. Qed.

Lemma select_none {A} (mask : list bool) (cols : list A) :
  count_true mask = 0%nat → select mask cols = [].
Proof.
  revert cols. induction mask as [|b mask IH]; intros [|c cols] H; try reflexivity.
  rewrite count_true_cons in H. destruct b; [lia|]. simpl. apply IH. lia.
Qed.

Lemma count_true_pos (mask : list bool) (i : nat) :
  mask !! i = Some true → (0 < count_true mask)%nat.
Proof.
  revert i. induction mask as [|b mask IH]; intros [|i] H; try discriminate;
    rewrite count_true_cons; simpl in H.
  - injection H as ->. lia.
  - specialize (IH i H). lia.
Qed.

Lemma select_one {A} (mask : list bool) (cols : list A) (i : nat) (q : A) :
  count_true mask = 1%nat → mask !! i = Some true → cols !! i = Some q →
  select mask cols = [q].
Proof.
  revert cols i. induction mask as [|b mask IH]; intros [|c cols] i H Hm Hc;
    try discriminate.
  rewrite count_true_cons in H. destruct i as [|i]; simpl in *.
  - injection Hm as ->. injection Hc as ->. f_equal. apply select_none. lia.
  - destruct b.
    + apply count_true_pos in Hm. lia.
    + apply (IH cols i); [lia|assumption|assumption].
Qed.

Lemma count_true_none (thr : float) (compl : list float) :
  Forall (λ c, float_gt c thr = false) compl → count_true (above thr compl) = 0%nat.
Proof.
  induction 1 as [|c compl Hc _ IH]; [reflexivity|].
  unfold above in *. simpl. rewrite count_true_cons, Hc, IH. reflexivity.
Qed.

Lemma above_lookup (thr : float) (compl : list float) (i : nat) (c : float) :
  compl !! i = Some c → above thr compl !! i = Some (float_gt c thr).
Proof. intros H. unfold above. rewrite list_lookup_fmap, H. reflexivity. Qed.

(** ** [run_cluster] below two orientations *)

Lemma length_select {A} (mask : list bool) (cols : list A) :
  length mask = length cols → length (select mask cols) = count_true mask.
Proof.
  revert cols. induction mask as [|b mask IH]; intros [|c cols] H; try discriminate;
    [reflexivity|].
  rewrite count_true_cons. injection H as H. destruct b; simpl; rewrite IH; auto.
Qed.

Section ShortCircuit.
Context {L : Libraries}.
Variables (cl_dict : gmap string _clustering_option) (fuel : nat).
Variables (compl : list float) (qfib qsym : list quat) (cfg : config).
Variables (min_samples compl_thresh radius : option float).

Lemma run_cluster_zero :
  count_true (above (threshold_of cfg compl_thresh) compl) = 0%nat →
  run_cluster cl_dict fuel compl qfib qsym cfg min_samples compl_thresh radius
  = (closing_log cfg compl_thresh radius 0, Return ([], [])).
Proof.
  intros H. unfold run_cluster, threshold_of in *. rewrite H. reflexivity.
Qed.

Lemma run_cluster_one :
  length compl = length qfib →
  count_true (above (threshold_of cfg compl_thresh) compl) = 1%nat →
  run_cluster cl_dict fuel compl qfib qsym cfg min_samples compl_thresh radius
  = (closing_log cfg compl_thresh radius 1,
     Return (select (above (threshold_of cfg compl_thresh) compl) qfib, [1])).
Proof.
  intros Hlen H. unfold run_cluster, threshold_of in *. rewrite H.
  unfold bool_index. rewrite length_above.
  destruct (decide (length compl = length qfib)) as [_|Hne]; [|contradiction].
  unfold lift. rewrite run_bind_return. simpl.
  rewrite length_select, H by (rewrite length_above; assumption). reflexivity.
Qed.
End ShortCircuit.

(** C3. When no completeness strictly exceeds the threshold in force
    (the configured one, or its override), [run_cluster] returns the empty
    centroid set and the empty cluster assignment; it does not raise, and
    no clustering function is called. This holds for every registry, every
    configured algorithm and every fuel. *)
Theorem C3_run_cluster_nothing_above_threshold
    {L : Libraries} (cl_dict : gmap string _clustering_option) (fuel : nat)
    (compl : list float) (qfib qsym : list quat) (cfg : config)
    (min_samples compl_thresh radius : option float) :
  Forall (λ c, float_gt c (threshold_of cfg compl_thresh) = false) compl →
  let r := run_cluster cl_dict fuel compl qfib qsym cfg min_samples compl_thresh radius in
  result r = Return ([], []) ∧ calls (trace r) = [].
Proof.
  intros H r. subst r. rewrite run_cluster_zero by (apply count_true_none, H).
  split; reflexivity.
Qed.

(** The scenario of the specification: threshold 0.7, every completeness
    at 0.5, and a configured algorithm that works. *)
Lemma C3_witness :
  let compl := [Fin (1 # 2); Fin (1 # 2); Fin (1 # 2)] in
  let r := run_cluster (L := Sample.libraries true true)
             (_clustering_algorithm_dict (L := Sample.libraries true true)) 8
             compl [Sample.qa; Sample.qb; Sample.qc] [] (Sample.cfg "dbscan")
             None None None in
  Forall (λ c, float_gt c (Fin (7 # 10)) = false) compl ∧
  result r = Return ([], []) ∧ calls (trace r) = [].
Proof.
  intros compl r.
  assert (H : Forall (λ c, float_gt c (threshold_of (Sample.cfg "dbscan") None) = false) compl).
  { repeat constructor. }
  split; [exact H|].
  exact (C3_run_cluster_nothing_above_threshold
           (L := Sample.libraries true true) _ 8 compl _ [] _ None None None H).
Defined.

(** C2. When exactly one completeness strictly exceeds the threshold in
    force, [run_cluster] returns the orientation in that position,
    unchanged, as the only centroid, with the assignment [[1]]; no
    clustering function is called. *)
Theorem C2_run_cluster_single_orientation
    {L : Libraries} (cl_dict : gmap string _clustering_option) (fuel : nat)
    (compl : list float) (qfib qsym : list quat) (cfg : config)
    (min_samples compl_thresh radius : option float)
    (i : nat) (c : float) (q : quat) :
  length compl = length qfib →
  count_true (above (threshold_of cfg compl_thresh) compl) = 1%nat →
  compl !! i = Some c →
  float_gt c (threshold_of cfg compl_thresh) = true →
  qfib !! i = Some q →
  let r := run_cluster cl_dict fuel compl qfib qsym cfg min_samples compl_thresh radius in
  result r = Return ([q], [1]) ∧ calls (trace r) = [].
Proof.
  intros Hlen H1 Hc Hgt Hq r. subst r. rewrite run_cluster_one by assumption.
  rewrite (select_one _ _ i q H1); [split; reflexivity| |assumption].
  rewrite (above_lookup _ _ _ _ Hc), Hgt. reflexivity.
Qed.

(** The second of three orientations is the only one above an overriding
    threshold of 0.9; the configured algorithm is not even registered. *)
Lemma C2_witness :
  let compl := [Fin (1 # 2); of_Z 1; Fin (8 # 10)] in
  let qfib := [Sample.qa; Sample.qb; Sample.qc] in
  let r := run_cluster (L := Sample.libraries false false) ∅ 0
             compl qfib [] (Sample.cfg "unheard-of") None (Some (Fin (9 # 10))) None in
  result r = Return ([Sample.qb], [1]) ∧ calls (trace r) = [].
Proof.
  intros compl qfib.
  apply (C2_run_cluster_single_orientation (L := Sample.libraries false false)
           ∅ 0%nat compl qfib [] (Sample.cfg "unheard-of") None (Some (Fin (9 # 10))) None
           1%nat (of_Z 1) Sample.qb); reflexivity.
Defined.

(** C10. With fewer than two completeness values above the threshold,
    the result of [run_cluster] does not depend on the registry, the
    configured algorithm name, the fuel or the numerical libraries: any
    other choice of them, an unregistered name included, gives the same
    run, and that run returns (it does not raise) without calling a
    clustering function. *)
Theorem C10_run_cluster_registry_not_consulted
    {L : Libraries} (cl_dict : gmap string _clustering_option) (fuel : nat)
    (compl : list float) (qfib qsym : list quat) (cfg : config)
    (min_samples compl_thresh radius : option float) :
  length compl = length qfib →
  (count_true (above (threshold_of cfg compl_thresh) compl) < 2)%nat →
  let r := run_cluster cl_dict fuel compl qfib qsym cfg min_samples compl_thresh radius in
  (∀ (L' : Libraries) (cl_dict' : gmap string _clustering_option) (fuel' : nat)
     (algorithm' : string),
     run_cluster (L := L') cl_dict' fuel' compl qfib qsym
       (with_algorithm algorithm' cfg) min_samples compl_thresh radius = r) ∧
  (∃ v, result r = Return v) ∧
  calls (trace r) = [].
Proof.
  intros Hlen Hlt r. subst r.
  destruct (count_true (above (threshold_of cfg compl_thresh) compl))
    as [|[|n]] eqn:Hn; [| |lia].
  - rewrite run_cluster_zero by assumption. split; [|split].
    + intros L' d' f' a'. rewrite run_cluster_zero by assumption. reflexivity.
    + eexists; reflexivity.
    + reflexivity.
  - rewrite run_cluster_one by assumption. split; [|split].
    + intros L' d' f' a'. rewrite run_cluster_one by assumption. reflexivity.
    + eexists; reflexivity.
    + reflexivity.
Qed.

(** One orientation above the threshold, the algorithm name unknown. *)
Lemma C10_witness :
  let compl := [of_Z 1; Fin (1 # 2)] in
  let qfib := [Sample.qa; Sample.qb] in
  let r := run_cluster (L := Sample.libraries true true)
             (_clustering_algorithm_dict (L := Sample.libraries true true)) 8
             compl qfib [] (Sample.cfg "unheard-of") None None None in
  (∀ (L' : Libraries) (cl_dict' : gmap string _clustering_option) (fuel' : nat)
     (algorithm' : string),
     run_cluster (L := L') cl_dict' fuel' compl qfib []
       (with_algorithm algorithm' (Sample.cfg "unheard-of")) None None None = r) ∧
  (∃ v, result r = Return v) ∧
  calls (trace r) = [].
Proof.
  intros compl qfib.
  apply (C10_run_cluster_registry_not_consulted (L := Sample.libraries true true));
    [reflexivity|vm_compute; lia].
Defined.

(** ** [run_cluster] with two orientations or more *)

Section Chain.
Context {L : Libraries}.
Variables (cl_dict : gmap string _clustering_option).
Variables (compl : list float) (qfib qsym : list quat) (cfg : config).
Variables (min_samples compl_thresh radius : option float).

Lemma getattr_msg (args : list string) : getattr args "msg" = Raise no_msg_attribute.
Proof. reflexivity. Qed.

(** A strategy that reports unavailable ends the loop at once: reading
    [error.msg] in the handler raises, whatever fallback is declared. *)
Lemma dispatch_unavailable (fuel : nat) (entry : _clustering_option)
    (args : list string) (qfib_r : list quat) (cl_radius : float) :
  cl_dict !! cfg_algorithm cfg = Some entry →
  fn entry qfib_r qsym cl_radius min_samples = Raise (ClusterMethodUnavailableError args) →
  dispatch cl_dict (S fuel) (cfg_algorithm cfg) qfib_r qsym cl_radius min_samples
  = (trying (cfg_algorithm cfg) qfib_r, Raise no_msg_attribute).
Proof. intros Hin Hfn. simpl. rewrite Hin, Hfn. reflexivity. Qed.

Lemma dispatch_unrecognized (fuel : nat) (qfib_r : list quat) (cl_radius : float) :
  cl_dict !! cfg_algorithm cfg = None →
  dispatch cl_dict (S fuel) (cfg_algorithm cfg) qfib_r qsym cl_radius min_samples
  = ([], Raise (RuntimeError
                  ("Clustering '" +:+ cfg_algorithm cfg +:+ "' not recognized"))).
Proof. intros Hin. simpl. rewrite Hin. reflexivity. Qed.

Lemma run_cluster_many (fuel : nat) :
  length compl = length qfib →
  (2 ≤ count_true (above (threshold_of cfg compl_thresh) compl))%nat →
  let qfib_r := select (above (threshold_of cfg compl_thresh) compl) qfib in
  run_cluster cl_dict fuel compl qfib qsym cfg min_samples compl_thresh radius
  = (logger_info "Feeding %d orientations above %.1f%% to clustering"
       [ArgInt (Z.of_nat (length qfib_r));
        ArgNum (fmul (of_Z 100) (threshold_of cfg compl_thresh))];;
     cl ← dispatch cl_dict fuel (cfg_algorithm cfg) qfib_r qsym
            (default (cfg_radius cfg) radius) min_samples;
     logger_info "clustering done in %f seconds, computing centroids" [ArgOpaque];;
     emit (SaveFile (os_path_join (cfg_working_dir cfg) "clusters.dat"));;
     qbar ← lift (compute_centroids qfib_r cl qsym);
     mret (qbar, cl)) ≫= λ '(qbar, cl),
    (closing_log cfg compl_thresh radius (length qbar), Return (qbar, cl)).
Proof.
  intros Hlen H qfib_r. subst qfib_r. unfold run_cluster, threshold_of in *.
  destruct (count_true _) as [|[|n]] eqn:Hn; [lia|lia|].
  unfold bool_index. rewrite length_above.
  destruct (decide (length compl = length qfib)) as [_|Hne]; [|contradiction].
  rewrite lift_return_bind. reflexivity.
Qed.

(** The unknown name is reported. *)
Lemma run_cluster_unrecognized (fuel : nat) :
  length compl = length qfib →
  (2 ≤ count_true (above (threshold_of cfg compl_thresh) compl))%nat →
  cl_dict !! cfg_algorithm cfg = None →
  result (run_cluster cl_dict (S fuel) compl qfib qsym cfg min_samples compl_thresh radius)
  = Raise (RuntimeError ("Clustering '" +:+ cfg_algorithm cfg +:+ "' not recognized")).
Proof.
  intros Hlen H Hin. rewrite run_cluster_many by assumption.
  rewrite dispatch_unrecognized by assumption. reflexivity.
Qed.

(** An unavailable strategy makes [run_cluster] raise [AttributeError]:
    no fallback is tried and none is reported. *)
Lemma run_cluster_unavailable (fuel : nat) (entry : _clustering_option)
    (args : list string) :
  length compl = length qfib →
  (2 ≤ count_true (above (threshold_of cfg compl_thresh) compl))%nat →
  cl_dict !! cfg_algorithm cfg = Some entry →
  (∀ qfib_r cl_radius,
     fn entry qfib_r qsym cl_radius min_samples = Raise (ClusterMethodUnavailableError args)) →
  let r := run_cluster cl_dict (S fuel) compl qfib qsym cfg min_samples compl_thresh radius in
  result r = Raise no_msg_attribute ∧ calls (trace r) = [cfg_algorithm cfg].
Proof.
  intros Hlen H Hin Hfn r. subst r. rewrite run_cluster_many by assumption.
  rewrite (dispatch_unavailable fuel entry args) by auto. split; reflexivity.
Qed.
End Chain.

(** C1 (the code departs from it). sklearn is present and parallel_dbscan
    is not; two orientations are above the threshold and ['omp-dbscan'] is
    configured. Its entry declares the fallback ['homochoric-dbscan'] and
    its function reports unavailable; run directly, the fallback returns a
    result. [run_cluster] does not return that result: it raises
    [AttributeError] from the handler, and its trace ends at the call of
    ['omp-dbscan'], with no substitution reported and no fallback called. *)
Theorem C1_fallback_not_substituted :
  let L := Sample.libraries true false in
  let cl_dict := _clustering_algorithm_dict (L := L) in
  let compl := [of_Z 1; of_Z 1] in
  let qfib := [Sample.qa; Sample.qb] in
  let run_with algorithm :=
    run_cluster (L := L) cl_dict 8 compl qfib [] (Sample.cfg algorithm)
      (Some (of_Z 2)) None None in
  (∃ entry, cl_dict !! "omp-dbscan" = Some entry ∧
            fallback entry = Some "homochoric-dbscan" ∧
            fn entry qfib [] (of_Z 1) (Some (of_Z 2)) = Raise parallel_dbscan_missing) ∧
  result (run_with "homochoric-dbscan") = Return ([Sample.qb], [0; 1]) ∧
  result (run_with "omp-dbscan") = Raise no_msg_attribute ∧
  trace (run_with "omp-dbscan")
  = [Info "Feeding %d orientations above %.1f%% to clustering"
       [ArgInt 2; ArgNum (fmul (of_Z 100) (Fin (7 # 10)))];
     Info "Trying '%s' over %d orientations" [ArgStr "omp-dbscan"; ArgInt 2];
     Call "omp-dbscan"].
Proof.
  intros L cl_dict compl qfib run_with. split; [|split; [|split]].
  - eexists. split; [vm_compute; reflexivity|]. split; reflexivity.
  - vm_compute. reflexivity.
  - vm_compute. reflexivity.
  - vm_compute. reflexivity.
Qed.

(** C5 (the code departs from it in its second half). sklearn is missing
    and ['qim-dbscan'], which declares no fallback, is configured with two
    orientations above the threshold. Its function reports unavailable,
    and [run_cluster] fails, but with [AttributeError] from the handler:
    the report of the exhausted chain, [RuntimeError "Clustering
    'qim-dbscan' failed, no fallback."], is never raised. *)
Theorem C5_exhausted_chain_not_reported :
  let L := Sample.libraries false false in
  let cl_dict := _clustering_algorithm_dict (L := L) in
  let compl := [of_Z 1; of_Z 1] in
  let qfib := [Sample.qa; Sample.qb] in
  let r := run_cluster (L := L) cl_dict 8 compl qfib [] (Sample.cfg "qim-dbscan")
             (Some (of_Z 2)) None None in
  (∃ entry, cl_dict !! "qim-dbscan" = Some entry ∧
            fallback entry = None ∧
            fn entry qfib [] (of_Z 1) (Some (of_Z 2)) = Raise sklearn_missing) ∧
  result r = Raise no_msg_attribute ∧
  result r ≠ Raise (RuntimeError "Clustering 'qim-dbscan' failed, no fallback.").
Proof.
  intros L cl_dict compl qfib r. split; [|split].
  - eexists. split; [vm_compute; reflexivity|]. split; reflexivity.
  - vm_compute. reflexivity.
  - vm_compute. discriminate.
Qed.

(** ** The registered strategies *)

Lemma load_module_ok {L : Libraries} : load_module = Return _clustering_algorithm_dict.
Proof. vm_compute. reflexivity. Qed.

(** The registry holds the six decorated functions and nothing else. *)
Lemma registry_entries {L : Libraries} (name : string) (entry : _clustering_option) :
  _clustering_algorithm_dict !! name = Some entry →
  (name = "qim-dbscan" ∧ entry = {| fn := cluster_quaternion_im_dbscan; fallback := None |}) ∨
  (name = "omp-dbscan" ∧
   entry = {| fn := cluster_parallel_dbscan; fallback := Some "homochoric-dbscan" |}) ∨
  (name = "homochoric-dbscan" ∧
   entry = {| fn := cluster_homochoric_dbscan; fallback := Some "dbscan" |}) ∨
  (name = "fclusterdata" ∧ entry = {| fn := cluster_fcluster; fallback := None |}) ∨
  (name = "qim-fclusterdata" ∧
   entry = {| fn := cluster_qim_fclusterdata; fallback := Some "fclusterdata" |}) ∨
  (name = "dbscan" ∧ entry = {| fn := cluster_dbscan; fallback := Some "fclusterdata" |}).
Proof.
  unfold _clustering_algorithm_dict. intros H.
  repeat (apply lookup_insert_Some in H as [[<- <-]|[_ H]]; [tauto|]).
  rewrite lookup_empty in H. discriminate.
Qed.

Lemma plus_one_shift (k : Z) (labels : list Z) :
  Forall (λ l, k ≤ l) labels → Forall (λ id, k + 1 ≤ id) (plus_one labels).
Proof.
  unfold plus_one. intros H. apply Forall_fmap. eapply Forall_impl; [exact H|].
  simpl. intros; lia.
Qed.

Section Labels.
Context {L : Libraries} {LC : LabelConventions L}.
Variables (qfib_r qsym : list quat) (cl_radius : float) (min_samples : option float).
Variable cl : list Z.

Lemma cluster_quaternion_im_dbscan_ids :
  cluster_quaternion_im_dbscan qfib_r qsym cl_radius min_samples = Return cl →
  Forall (λ id, 0 ≤ id) cl.
Proof.
  unfold cluster_quaternion_im_dbscan. destruct have_sklearn; [|discriminate].
  simpl. intros [= <-]. apply (plus_one_shift (-1)), sklearn_dbscan_labels.
Qed.

Lemma cluster_parallel_dbscan_ids :
  cluster_parallel_dbscan qfib_r qsym cl_radius min_samples = Return cl →
  Forall (λ id, 0 ≤ id) cl.
Proof.
  unfold cluster_parallel_dbscan. destruct have_parallel_dbscan; [|discriminate].
  simpl. intros [= <-]. apply (plus_one_shift (-1)), omp_dbscan_labels.
Qed.

Lemma cluster_homochoric_dbscan_ids :
  cluster_homochoric_dbscan qfib_r qsym cl_radius min_samples = Return cl →
  Forall (λ id, 0 ≤ id) cl.
Proof.
  unfold cluster_homochoric_dbscan. destruct have_sklearn; [|discriminate].
  simpl. intros [= <-]. apply (plus_one_shift (-1)), sklearn_dbscan_labels.
Qed.

Lemma cluster_dbscan_ids :
  cluster_dbscan qfib_r qsym cl_radius min_samples = Return cl →
  Forall (λ id, 0 ≤ id) cl.
Proof.
  unfold cluster_dbscan. destruct have_sklearn; [|discriminate].
  simpl. intros [= <-]. apply (plus_one_shift (-1)), sklearn_dbscan_labels.
Qed.

Lemma cluster_fcluster_ids :
  cluster_fcluster qfib_r qsym cl_radius min_samples = Return cl →
  Forall (λ id, 1 ≤ id) cl.
Proof.
  unfold cluster_fcluster. intros [= <-]. apply fclusterdata_labels.
Qed.

(** The shift by one is applied here too: these ids start at 2. *)
Lemma cluster_qim_fclusterdata_ids :
  cluster_qim_fclusterdata qfib_r qsym cl_radius min_samples = Return cl →
  Forall (λ id, 2 ≤ id) cl.
Proof.
  unfold cluster_qim_fclusterdata. destruct have_sklearn; [|discriminate].
  simpl. intros [= <-]. apply (plus_one_shift 1), fclusterdata_labels.
Qed.
End Labels.

Lemma Forall_weaken_le (a b : Z) (l : list Z) :
  a ≤ b → Forall (λ id, b ≤ id) l → Forall (λ id, a ≤ id) l.
Proof. intros Hab H. eapply Forall_impl; [exact H|]. simpl. intros; lia. Qed.

Lemma zero_not_positive (l : list Z) : Forall (λ id, 1 ≤ id) l → 0 ∉ l.
Proof. intros H Hin. rewrite Forall_forall in H. specialize (H 0 Hin). lia. Qed.

(** C6. With backends that follow their label conventions (dbscan: noise
    is -1 and clusters count from 0; fclusterdata: clusters count from 1),
    whatever a registered strategy returns holds only non-negative ids, so
    every id other than 0 is positive; the two fclusterdata strategies
    return positive ids only, and an assignment that contains 0 comes from
    one of the four dbscan strategies. *)
Theorem C6_cluster_ids_of_registered_strategies
    {L : Libraries} {LC : LabelConventions L}
    (name : string) (entry : _clustering_option)
    (qfib_r qsym : list quat) (cl_radius : float) (min_samples : option float)
    (cl : list Z) :
  _clustering_algorithm_dict !! name = Some entry →
  fn entry qfib_r qsym cl_radius min_samples = Return cl →
  Forall (λ id, 0 ≤ id) cl ∧
  Forall (λ id, id ≠ 0 → 0 < id) cl ∧
  (name = "fclusterdata" ∨ name = "qim-fclusterdata" → Forall (λ id, 0 < id) cl) ∧
  (0 ∈ cl → name ∈ ["qim-dbscan"; "omp-dbscan"; "homochoric-dbscan"; "dbscan"]).
Proof.
  intros Hin Hfn.
  assert (Hcases :
    (name ∈ ["qim-dbscan"; "omp-dbscan"; "homochoric-dbscan"; "dbscan"] ∧
     Forall (λ id, 0 ≤ id) cl) ∨
    ((name = "fclusterdata" ∨ name = "qim-fclusterdata") ∧ Forall (λ id, 1 ≤ id) cl)).
  { apply registry_entries in Hin
      as [[-> ->]|[[-> ->]|[[-> ->]|[[-> ->]|[[-> ->]|[-> ->]]]]]]; simpl in Hfn.
    - left. split; [set_solver|]. eapply cluster_quaternion_im_dbscan_ids, Hfn.
    - left. split; [set_solver|]. eapply cluster_parallel_dbscan_ids, Hfn.
    - left. split; [set_solver|]. eapply cluster_homochoric_dbscan_ids, Hfn.
    - right. split; [tauto|]. eapply cluster_fcluster_ids, Hfn.
    - right. split; [tauto|]. apply (Forall_weaken_le 1 2); [lia|].
      eapply cluster_qim_fclusterdata_ids, Hfn.
    - left. split; [set_solver|]. eapply cluster_dbscan_ids, Hfn. }
  destruct Hcases as [[Hname Hge]|[Hname Hge]].
  - split; [exact Hge|]. split; [|split].
    + eapply Forall_impl; [exact Hge|]. simpl. intros; lia.
    + intros Hh. exfalso. rewrite !elem_of_cons, elem_of_nil in Hname.
      destruct Hh as [-> | ->]; intuition discriminate.
    + intros _. exact Hname.
  - split; [apply (Forall_weaken_le 0 1); [lia|exact Hge]|]. split; [|split].
    + eapply Forall_impl; [exact Hge|]. simpl. intros; lia.
    + intros _. eapply Forall_impl; [exact Hge|]. simpl. intros; lia.
    + intros H0. exfalso. exact (zero_not_positive _ Hge H0).
Qed.

Lemma sample_label_conventions (sklearn parallel : bool) :
  LabelConventions (Sample.libraries sklearn parallel).
Proof.
  split; simpl.
  - intros [|x X] _ _ _; constructor; [lia|].
    apply Forall_fmap, Forall_true. simpl. intros; lia.
  - intros X _ _. apply Forall_fmap, Forall_true. simpl. intros; lia.
  - intros X _ _. apply Forall_fmap, Forall_true. simpl. intros; lia.
Qed.

(** ['dbscan'] on two orientations: the first is noise, the second is
    cluster 1. *)
Lemma C6_witness :
  let L := Sample.libraries true true in
  let cl := [0; 1] in
  Forall (λ id, 0 ≤ id) cl ∧
  Forall (λ id, id ≠ 0 → 0 < id) cl ∧
  ("dbscan" = "fclusterdata" ∨ "dbscan" = "qim-fclusterdata" → Forall (λ id, 0 < id) cl) ∧
  (0 ∈ cl → "dbscan" ∈ ["qim-dbscan"; "omp-dbscan"; "homochoric-dbscan"; "dbscan"]).
Proof.
  intros L cl.
  apply (C6_cluster_ids_of_registered_strategies
           (L := L) (LC := sample_label_conventions true true)
           "dbscan" {| fn := cluster_dbscan; fallback := Some "fclusterdata" |}
           [Sample.qa; Sample.qb] [] (of_Z 5) (Some (of_Z 2)) cl).
  - vm_compute. reflexivity.
  - vm_compute. reflexivity.
Defined.

(** ** [np.unique] *)

Lemma elem_of_insert_unique (x y : Z) (l : list Z) :
  y ∈ insert_unique x l ↔ y = x ∨ y ∈ l.
Proof.
  induction l as [|z l IH]; simpl.
  - rewrite list_elem_of_singleton, elem_of_nil. tauto.
  - destruct (Z.ltb_spec x z) as [Hlt|Hge].
    + rewrite !elem_of_cons. tauto.
    + destruct (Z.eqb_spec x z) as [->|Hne].
      * rewrite !elem_of_cons. tauto.
      * rewrite !elem_of_cons, IH. tauto.
Qed.

Lemma insert_unique_sorted (x : Z) (l : list Z) :
  StronglySorted Z.lt l → StronglySorted Z.lt (insert_unique x l).
Proof.
  induction 1 as [|z l Hs IH Hz]; simpl.
  - repeat constructor.
  - destruct (Z.ltb_spec x z) as [Hlt|Hge].
    + constructor; [constructor; assumption|].
      constructor; [assumption|].
      eapply Forall_impl; [exact Hz|]. simpl. intros; lia.
    + destruct (Z.eqb_spec x z) as [->|Hne]; [constructor; assumption|].
      constructor; [assumption|].
      rewrite Forall_forall. intros y Hy. apply elem_of_insert_unique in Hy as [->|Hy].
      * lia.
      * rewrite Forall_forall in Hz. auto.
Qed.

Lemma np_unique_sorted (l : list Z) : StronglySorted Z.lt (np_unique l).
Proof.
  induction l as [|x l IH]; simpl; [constructor|]. apply insert_unique_sorted, IH.
Qed.

Lemma elem_of_np_unique (y : Z) (l : list Z) : y ∈ np_unique l ↔ y ∈ l.
Proof.
  induction l as [|x l IH]; simpl; [reflexivity|].
  rewrite elem_of_insert_unique, elem_of_cons, IH. reflexivity.
Qed.

(** ** [compute_centroids] *)

Lemma select_eq_mask (qfib_r : list quat) (cl : list Z) (cl_id : Z) :
  select (eq_mask cl cl_id) qfib_r = members qfib_r cl cl_id.
Proof.
  unfold members, eq_mask. revert qfib_r.
  induction cl as [|c cl IH]; intros [|q qfib_r]; try reflexivity.
  simpl. rewrite filter_cons. simpl.
  destruct (Z.eqb_spec c cl_id) as [->|Hne].
  - rewrite decide_True by reflexivity. simpl. f_equal. apply IH.
  - rewrite decide_False by assumption. apply IH.
Qed.

Section CentroidLoop.
Context {L : Libraries}.
Variables (qfib_r : list quat) (cl : list Z) (qsym : list quat).
Hypothesis same_length : length qfib_r = length cl.

(** Filling [qbar] in place, column [k] onwards, with one average per
    cluster id. *)
Lemma centroid_loop_fills (ids : list Z) (done rest : list quat) :
  (length ids ≤ length rest)%nat →
  centroid_loop (enumerate_from (length done) ids) qfib_r cl qsym (done ++ rest)
  = Return (done ++ map (λ id, quatAverage (members qfib_r cl id) qsym) ids
              ++ drop (length ids) rest).
Proof.
  revert done rest. induction ids as [|id ids IH]; intros done rest Hlen; simpl.
  - rewrite drop_0. reflexivity.
  - destruct rest as [|r rest]; [simpl in Hlen; lia|].
    unfold bool_index, eq_mask. rewrite length_map.
    destruct (decide (length cl = length qfib_r)) as [_|Hne]; [|congruence].
    simpl. fold (eq_mask cl id). rewrite select_eq_mask.
    replace (length done) with (length done + 0)%nat at 2 by lia.
    rewrite insert_app_r. simpl.
    specialize (IH (done ++ [quatAverage (members qfib_r cl id) qsym]) rest).
    rewrite length_app in IH. simpl in IH.
    replace (length done + 1)%nat with (S (length done)) in IH by lia.
    rewrite <- !app_assoc in IH. simpl in IH. apply IH. simpl in Hlen. lia.
Qed.
End CentroidLoop.

Lemma sorted_tail_positive (rest : list Z) :
  StronglySorted Z.lt (0 :: rest) → Forall (λ id, 0 < id) rest.
Proof. intros H. inversion H; assumption. Qed.

Lemma sorted_head_least (c0 : Z) (rest : list Z) :
  StronglySorted Z.lt (c0 :: rest) → Forall (λ id, c0 ≤ id) (c0 :: rest).
Proof.
  intros H. inversion H as [|? ? _ Hall]; subst. constructor; [lia|].
  eapply Forall_impl; [exact Hall|]. simpl. intros; lia.
Qed.

(** The cluster ids that [compute_centroids] averages over: the distinct
    ids in ascending order, a leading 0 dropped. *)
Lemma compute_centroids_ids {L : Libraries} (qfib_r : list quat) (cl : list Z)
    (qsym : list quat) (c0 : Z) (rest : list Z) :
  length qfib_r = length cl →
  np_unique cl = c0 :: rest → 0 ≤ c0 →
  compute_centroids qfib_r cl qsym
  = Return (map (λ id, quatAverage (members qfib_r cl id) qsym)
              (if c0 =? 0 then rest else c0 :: rest)).
Proof.
  intros Hlen Hu Hc0. unfold compute_centroids. rewrite Hu.
  destruct (Z.ltb_spec c0 0) as [Hneg|_]; [lia|].
  set (clusters := if c0 =? 0 then rest else c0 :: rest).
  pose proof (centroid_loop_fills qfib_r cl qsym Hlen clusters []
                (replicate (length clusters) zero_quat)) as Hfill.
  simpl in Hfill. rewrite Hfill by (rewrite length_replicate; lia).
  rewrite drop_ge by (rewrite length_replicate; lia).
  rewrite app_nil_r. reflexivity.
Qed.

(** C4, amended to a non-empty assignment. For orientations and a
    non-empty assignment of the same length whose ids are non-negative,
    [compute_centroids] returns one column per distinct non-zero id, in
    ascending order of the ids: column [i] is the average of the members
    of the [i]-th such id. Where [quatAverage] returns the member of a
    single-member cluster (as the specification says it does), the
    centroid of a cluster with one member is that member. *)
Theorem C4_compute_centroids_nonempty
    {L : Libraries} {AC : AverageConventions L}
    (qfib_r : list quat) (cl : list Z) (qsym : list quat) :
  length qfib_r = length cl →
  cl ≠ [] →
  Forall (λ id, 0 ≤ id) cl →
  ∃ (ids : list Z) (centroids : list quat),
    compute_centroids qfib_r cl qsym = Return centroids ∧
    StronglySorted Z.lt ids ∧
    (∀ id, id ∈ ids ↔ id ∈ cl ∧ id ≠ 0) ∧
    centroids = map (λ id, quatAverage (members qfib_r cl id) qsym) ids ∧
    (∀ i id q, ids !! i = Some id → members qfib_r cl id = [q] →
               centroids !! i = Some q).
Proof.
  intros Hlen Hne Hnonneg.
  destruct (np_unique cl) as [|c0 rest] eqn:Hu.
  { destruct cl as [|c cl]; [contradiction|].
    assert (Hc : c ∈ np_unique (c :: cl)) by (apply elem_of_np_unique; left).
    rewrite Hu in Hc. apply elem_of_nil in Hc. contradiction. }
  pose proof (np_unique_sorted cl) as Hsorted. rewrite Hu in Hsorted.
  assert (Hmem : ∀ id, id ∈ c0 :: rest ↔ id ∈ cl).
  { intros id. rewrite <- Hu. apply elem_of_np_unique. }
  assert (Hc0 : 0 ≤ c0).
  { rewrite Forall_forall in Hnonneg. apply Hnonneg, Hmem. left. }
  exists (if c0 =? 0 then rest else c0 :: rest).
  eexists. split; [apply compute_centroids_ids; eassumption|].
  split; [|split; [|split]].
  - destruct (c0 =? 0); [inversion Hsorted|]; assumption.
  - intros id. rewrite <- Hmem. destruct (Z.eqb_spec c0 0) as [->|Hnz].
    + pose proof (sorted_tail_positive _ Hsorted) as Hpos.
      rewrite Forall_forall in Hpos. rewrite elem_of_cons. split.
      * intros Hid. specialize (Hpos id Hid). split; [tauto|lia].
      * intros [[->|Hid] Hn]; [contradiction|assumption].
    + pose proof (sorted_head_least _ _ Hsorted) as Hleast.
      rewrite Forall_forall in Hleast. split; [|tauto].
      intros Hid. specialize (Hleast id Hid). split; [assumption|lia].
  - reflexivity.
  - intros i id q Hi Hq. rewrite list_lookup_fmap, Hi. simpl.
    rewrite Hq, quatAverage_single. reflexivity.
Qed.

Lemma sample_average_conventions (sklearn parallel : bool) :
  AverageConventions (Sample.libraries sklearn parallel).
Proof. split. reflexivity. Qed.

(** Ids 3, 0, 1, 3: noise is left out, cluster 1 has one member. *)
Lemma C4_witness :
  let L := Sample.libraries true true in
  let qfib_r := [Sample.qa; Sample.qb; Sample.qc; Sample.qb] in
  let cl := [3; 0; 1; 3] in
  ∃ (ids : list Z) (centroids : list quat),
    compute_centroids (L := L) qfib_r cl [] = Return centroids ∧
    StronglySorted Z.lt ids ∧
    (∀ id, id ∈ ids ↔ id ∈ cl ∧ id ≠ 0) ∧
    centroids = map (λ id, quatAverage (members qfib_r cl id) []) ids ∧
    (∀ i id q, ids !! i = Some id → members qfib_r cl id = [q] →
               centroids !! i = Some q).
Proof.
  intros L qfib_r cl.
  apply (C4_compute_centroids_nonempty
           (L := L) (AC := sample_average_conventions true true) qfib_r cl []).
  - reflexivity.
  - discriminate.
  - repeat constructor; lia.
Defined.

(** C4 as stated fails on the empty assignment: the lengths match and
    every id is non-negative, yet [clusters[0]] raises. *)
Lemma C4_counterexample :
  let L := Sample.libraries true true in
  length ([] : list quat) = length ([] : list Z) ∧
  Forall (λ id, 0 ≤ id) ([] : list Z) ∧
  compute_centroids (L := L) [] [] []
  = Raise (IndexError "index 0 is out of bounds for axis 0 with size 0").
Proof. intros L. split; [reflexivity|]. split; [constructor|reflexivity]. Qed.

(** ** The neighbourhood-size estimate *)

Lemma emit_bind {B} (ev : event) (f : unit → run B) :
  emit ev ≫= f = (ev :: (f tt).1, (f tt).2).
Proof. unfold emit. rewrite run_bind_return. reflexivity. Qed.

Lemma float_lt_py_max_2 (a : float) : float_lt (py_max a (of_Z 2)) (of_Z 2) = false.
Proof.
  unfold py_max, float_lt. destruct a as [x|]; [|reflexivity].
  destruct (float_gt (of_Z 2) (Fin x)) eqn:Hgt; [reflexivity|exact Hgt].
Qed.

Lemma int_of_Z (z : Z) : int (of_Z z) = Return z.
Proof. unfold int, of_Z. simpl. rewrite Z.quot_1_r. reflexivity. Qed.

Lemma np_average_mean (counts : list Z) :
  counts ≠ [] → np_average counts = Fin (mean counts).
Proof. destruct counts; [contradiction|reflexivity]. Qed.

Section GrainLoop.
Context {W : Collaborators}.
Variable hkl_ids : list Z.

(** The loop fills both arrays in place, one cell per grain, and calls the
    simulator once per grain. *)
Lemma grain_loop_fills (n : nat) (done1 rest1 done2 rest2 : list Z) :
  length done1 = length done2 →
  (n ≤ length rest1)%nat → (n ≤ length rest2)%nat →
  grain_loop (seq (length done1) n) hkl_ids (done1 ++ rest1) (done2 ++ rest2)
  = (replicate n (Call "simulateGVecs"),
     Return (done1 ++ map total_reflections (seq (length done1) n) ++ drop n rest1,
             done2 ++ map (seed_reflections hkl_ids) (seq (length done1) n)
               ++ drop n rest2)).
Proof.
  revert done1 rest1 done2 rest2.
  induction n as [|n IH]; intros done1 rest1 done2 rest2 Hd H1 H2; simpl.
  - rewrite !drop_0. reflexivity.
  - destruct rest1 as [|r1 rest1]; [simpl in H1; lia|].
    destruct rest2 as [|r2 rest2]; [simpl in H2; lia|].
    replace (<[length done1:=Z.of_nat (length (simulateGVecs (length done1)))]>
               (done1 ++ r1 :: rest1))
      with ((done1 ++ [total_reflections (length done1)]) ++ rest1).
    2:{ replace (length done1) with (length done1 + 0)%nat at 2 by lia.
        rewrite insert_app_r, <- app_assoc. reflexivity. }
    replace (<[length done1:=np_sum (map (count_eq (simulateGVecs (length done1))) hkl_ids)]>
               (done2 ++ r2 :: rest2))
      with ((done2 ++ [seed_reflections hkl_ids (length done1)]) ++ rest2).
    2:{ rewrite Hd. replace (length done2) with (length done2 + 0)%nat at 2 by lia.
        rewrite insert_app_r, <- app_assoc, <- Hd. reflexivity. }
    specialize (IH (done1 ++ [total_reflections (length done1)]) rest1
                   (done2 ++ [seed_reflections hkl_ids (length done1)]) rest2).
    rewrite !length_app in IH. simpl in IH.
    replace (length done1 + 1)%nat with (S (length done1)) in IH by lia.
    rewrite IH by (simpl in *; lia). simpl. rewrite <- !app_assoc. reflexivity.
Qed.
End GrainLoop.

Lemma map_seq_nonempty {A} (f : nat → A) (start n : nat) :
  (0 < n)%nat → map f (seq start n) ≠ [].
Proof.
  intros Hn H. apply (f_equal length) in H. rewrite length_map, length_seq in H.
  simpl in H. lia.
Qed.

Lemma neighborhood_size_eq {W : Collaborators} (cfg : config) (hkl_ids : list Z) :
  neighborhood_size cfg hkl_ids
  = (replicate 100 (Call "simulateGVecs"),
     Return
       (py_max (fmul (cfg_completeness cfg)
                  (of_Z (Qfloor (mean (map (seed_reflections hkl_ids) (seq 0 100))))))
          (of_Z 2),
        round_half_even (mean (map total_reflections (seq 0 100))))).
Proof.
  unfold neighborhood_size.
  pose proof (grain_loop_fills hkl_ids 100 [] (replicate 100 0) [] (replicate 100 0))
    as Hloop.
  change (length (@nil Z)) with 0%nat in Hloop. rewrite !app_nil_l in Hloop.
  rewrite Hloop by (rewrite ?length_replicate; reflexivity || lia).
  rewrite drop_ge by (rewrite length_replicate; lia).
  rewrite !app_nil_r, run_bind_return. cbv beta iota.
  rewrite !np_average_mean by (apply map_seq_nonempty; lia).
  unfold np_round, np_floor. rewrite int_of_Z, lift_return_bind.
  unfold mret, run_ret, fst, snd. rewrite app_nil_r. reflexivity.
Qed.

Lemma py_max_2_spec (m : Q) :
  ((2 <= m)%Q → py_max (Fin m) (of_Z 2) = Fin m) ∧
  ((m < 2)%Q → py_max (Fin m) (of_Z 2) = of_Z 2).
Proof.
  unfold py_max, float_gt, of_Z. split; intros H.
  - destruct (Qle_bool (inject_Z 2) m) eqn:Hb; [reflexivity|].
    apply Qle_bool_iff in H. unfold inject_Z in Hb. congruence.
  - destruct (Qle_bool (inject_Z 2) m) eqn:Hb; [|reflexivity].
    apply Qle_bool_iff in Hb. exfalso. apply (Qlt_not_le _ _ H). exact Hb.
Qed.

(** [round_half_even] is a nearest integer. *)
Lemma round_half_even_near (q : Q) :
  (inject_Z (round_half_even q) - (1 # 2) <= q)%Q ∧
  (q <= inject_Z (round_half_even q) + (1 # 2))%Q.
Proof.
  unfold round_half_even.
  pose proof (Qfloor_le q) as Hlo. pose proof (Qlt_floor q) as Hhi.
  rewrite inject_Z_plus in Hhi. change (inject_Z 1) with 1%Q in Hhi.
  destruct (Qcompare_spec (q - inject_Z (Qfloor q)) (1 # 2)) as [He|Hl|Hg].
  - destruct (Z.even (Qfloor q)); rewrite ?inject_Z_plus;
      change (inject_Z 1) with 1%Q; split; lra.
  - split; lra.
  - rewrite inject_Z_plus. change (inject_Z 1) with 1%Q. split; lra.
Qed.


(** ** Fiber generation *)

Lemma index_lt `{Inhabited A} (a : list A) (i : nat) :
  (i < length a)%nat → index a i = Return (a !!! i).
Proof.
  intros Hi. unfold index. destruct (lookup_lt_is_Some_2 a i Hi) as [x Hx].
  rewrite Hx. erewrite list_lookup_total_correct by exact Hx. reflexivity.
Qed.

Lemma index_map {A B} (f : A → B) (a : list A) (i : nat) (x : A) :
  a !! i = Some x → index (map f a) i = Return (f x).
Proof.
  intros Hx. unfold index. change (map f a) with (f <$> a).
  rewrite list_lookup_fmap, Hx. reflexivity.
Qed.

Lemma fancy_index_total `{Inhabited A} (a : list A) (ids : list nat) :
  Forall (λ i, (i < length a)%nat) ids →
  fancy_index a ids = Return (map (λ i, a !!! i) ids).
Proof.
  induction 1 as [|i ids Hi _ IH]; simpl; [reflexivity|].
  rewrite index_lt by assumption. simpl. rewrite IH. reflexivity.
Qed.

Lemma slice_assign_fits (written tmp junk : list quat) :
  (length tmp ≤ length junk)%nat →
  slice_assign (written ++ junk) (length written) tmp
  = Return ((written ++ tmp) ++ drop (length tmp) junk).
Proof.
  intros Hfit. unfold slice_assign.
  rewrite decide_True by (rewrite length_app; lia).
  rewrite take_app_length, drop_app_add, <- app_assoc. reflexivity.
Qed.

Section SpotLoop.
Context {F : FiberLibraries} {FC : FiberConventions F}.
Variables (eta_ome : eta_ome_maps) (fiber_ndiv : nat) (pd_hkl_id : nat).
Hypothesis omegas_ok : (2 ≤ length (omegas eta_ome))%nat.
Hypothesis etas_ok : (2 ≤ length (etas eta_ome))%nat.
Hypothesis omeEdges_ok : (1 ≤ length (omeEdges eta_ome))%nat.
Hypothesis etaEdges_ok : (1 ≤ length (etaEdges eta_ome))%nat.
Hypothesis tTh_ok : (pd_hkl_id < length (getTTh (planeData eta_ome)))%nat.

Lemma length_blob_fiber (com : float * float) :
  (length (blob_fiber eta_ome fiber_ndiv pd_hkl_id com) ≤ fiber_ndiv)%nat.
Proof.
  unfold blob_fiber. destruct (isnan com.1); [simpl; lia|].
  apply discrete_fiber_length.
Qed.

(** The loop over the spots [k, k + n) of one reflection appends the
    fiber of each spot whose centre is not NaN to what is written so far,
    and never runs out of room in [qfib_tmp]. *)
Lemma spot_loop_appends (centres : list (float * float)) (n k : nat)
    (written junk : list quat) :
  (k + n ≤ length centres)%nat →
  (fiber_ndiv * n ≤ length junk)%nat →
  let del_ome := fsub (omegas eta_ome !!! 1%nat) (omegas eta_ome !!! 0%nat) in
  let del_eta := fsub (etas eta_ome !!! 1%nat) (etas eta_ome !!! 0%nat) in
  let fibers :=
    concat (map (blob_fiber eta_ome fiber_ndiv pd_hkl_id) (take n (drop k centres))) in
  spot_loop eta_ome fiber_ndiv pd_hkl_id del_ome del_eta
    (map (λ r, [r.1; r.2]) centres) (seq k n) (written ++ junk) (length written)
  = Return ((written ++ fibers) ++ drop (length fibers) junk,
            (length written + length fibers)%nat).
Proof.
  intros Hk Hroom del_ome del_eta. revert k written junk Hk Hroom.
  induction n as [|n IH]; intros k written junk Hk Hroom; simpl.
  - rewrite app_nil_r, drop_0, Nat.add_0_r. reflexivity.
  - destruct (lookup_lt_is_Some_2 centres k ltac:(lia)) as [com Hcom].
    rewrite (index_map _ _ _ _ Hcom). simpl.
    rewrite (drop_S _ _ _ Hcom). simpl.
    pose proof (length_blob_fiber com) as Hfit.
    remember (blob_fiber eta_ome fiber_ndiv pd_hkl_id com) as fib eqn:Hfib.
    unfold blob_fiber, bin_centre in Hfib.
    destruct (isnan com.1) eqn:Hnan; simpl.
    + subst fib. simpl. apply IH; lia.
    + rewrite !index_lt by lia. simpl. fold del_ome del_eta in Hfib.
      rewrite <- Hfib. rewrite slice_assign_fits by lia. simpl.
      rewrite <- length_app.
      rewrite IH by (rewrite ?length_drop; lia).
      rewrite drop_drop, !length_app, <- !app_assoc, Nat.add_assoc.
      reflexivity.
Qed.
End SpotLoop.

Lemma index_app_middle {A} (pre post : list A) (x : A) :
  index (pre ++ x :: post) (length pre) = Return x.
Proof. unfold index. rewrite list_lookup_middle by reflexivity. reflexivity. Qed.

Section FiberLoop.
Context {F : FiberLibraries} {FC : FiberConventions F}.
Variables (eta_ome : eta_ome_maps) (threshold : float) (fiber_ndiv : nat).
Hypothesis omegas_ok : (2 ≤ length (omegas eta_ome))%nat.
Hypothesis etas_ok : (2 ≤ length (etas eta_ome))%nat.
Hypothesis omeEdges_ok : (1 ≤ length (omeEdges eta_ome))%nat.
Hypothesis etaEdges_ok : (1 ≤ length (etaEdges eta_ome))%nat.

Lemma label_spots_total (seed_hkl_ids : list nat) :
  Forall (λ i, (i < length (dataStore eta_ome))%nat) seed_hkl_ids →
  label_spots eta_ome threshold seed_hkl_ids
  = Return (map (spots_of eta_ome threshold) seed_hkl_ids).
Proof.
  induction 1 as [|i seeds Hi _ IH]; simpl; [reflexivity|].
  rewrite index_lt by assumption. simpl. rewrite IH.
  unfold spots_of, blob_centres.
  destruct (ndimage_label (binarize (dataStore eta_ome !!! i) threshold)); reflexivity.
Qed.

Lemma length_blob_centres (i : nat) :
  length (blob_centres eta_ome threshold i) = (spots_of eta_ome threshold i).1.
Proof.
  unfold spots_of, blob_centres. simpl.
  rewrite center_of_mass_length, length_seq. apply amax_label.
Qed.

(** One turn of the second loop leaves the fibers of the seed at the
    front of [qfib_tmp] and their number in [ii]. *)
Lemma spot_loop_seed (i : nat) :
  (iHKLList eta_ome !!! i < length (getTTh (planeData eta_ome)))%nat →
  let del_ome := fsub (omegas eta_ome !!! 1%nat) (omegas eta_ome !!! 0%nat) in
  let del_eta := fsub (etas eta_ome !!! 1%nat) (etas eta_ome !!! 0%nat) in
  let numSpots_i := (spots_of eta_ome threshold i).1 in
  let fibers := seed_fibers eta_ome threshold fiber_ndiv i in
  ∃ junk,
    spot_loop eta_ome fiber_ndiv (iHKLList eta_ome !!! i) del_ome del_eta
      (spots_of eta_ome threshold i).2 (seq 0 numSpots_i)
      (replicate (fiber_ndiv * numSpots_i) uninitialized) 0
    = Return (fibers ++ junk, length fibers).
Proof.
  intros HtTh del_ome del_eta numSpots_i fibers.
  pose proof (length_blob_centres i) as Hn. fold numSpots_i in Hn.
  unfold fibers, seed_fibers.
  destruct (blob_centres eta_ome threshold i) as [|c centres] eqn:Hc.
  - simpl in Hn. rewrite <- Hn. simpl. eexists. reflexivity.
  - unfold spots_of at 1. rewrite Hc. cbn [snd atleast_2d].
    clearbody numSpots_i. subst numSpots_i.
    pose proof (spot_loop_appends eta_ome fiber_ndiv (iHKLList eta_ome !!! i)
                  omegas_ok etas_ok omeEdges_ok etaEdges_ok HtTh
                  (c :: centres) (length (c :: centres)) 0 []
                  (replicate (fiber_ndiv * length (c :: centres)) uninitialized))
      as Hloop.
    cbv zeta in Hloop. rewrite drop_0, firstn_all in Hloop.
    eexists. apply Hloop.
    + lia.
    + rewrite length_replicate. lia.
Qed.

(** The second loop returns one block per seed reflection: its fibers. *)
Lemma fiber_loop_total (seed_hkl_ids : list nat) (pre_ids : list nat)
    (pre_spots : list (nat * list (list float))) :
  length pre_ids = length pre_spots →
  Forall (λ i, (iHKLList eta_ome !!! i < length (getTTh (planeData eta_ome)))%nat)
         seed_hkl_ids →
  fiber_loop eta_ome fiber_ndiv
    (fsub (omegas eta_ome !!! 1%nat) (omegas eta_ome !!! 0%nat))
    (fsub (etas eta_ome !!! 1%nat) (etas eta_ome !!! 0%nat))
    (pre_ids ++ map (λ i, iHKLList eta_ome !!! i) seed_hkl_ids)
    (pre_spots ++ map (spots_of eta_ome threshold) seed_hkl_ids)
    (seq (length pre_ids) (length seed_hkl_ids))
  = Return (map (seed_fibers eta_ome threshold fiber_ndiv) seed_hkl_ids).
Proof.
  intros Hpre Hall. revert pre_ids pre_spots Hpre.
  induction Hall as [|i seeds Hi _ IH]; intros pre_ids pre_spots Hpre;
    [reflexivity|].
  cbn [map length seq fiber_loop].
  rewrite index_app_middle. cbn [mbind outcome_bind].
  rewrite Hpre, index_app_middle, <- Hpre. cbn [mbind outcome_bind].
  destruct (spot_loop_seed i Hi) as [junk Hloop]. cbv zeta in Hloop.
  destruct (spots_of eta_ome threshold i) as [numSpots_i coms_i] eqn:Hspots.
  cbn [fst snd] in Hloop. rewrite Hloop. cbn [mbind outcome_bind].
  rewrite take_app_length.
  specialize (IH (pre_ids ++ [iHKLList eta_ome !!! i]) (pre_spots ++ [(numSpots_i, coms_i)])).
  rewrite !length_app, <- !app_assoc in IH. cbn [length app] in IH.
  replace (length pre_ids + 1)%nat with (S (length pre_ids)) in IH by lia.
  rewrite IH by lia. reflexivity.
Qed.
End FiberLoop.

Lemma well_formed_tTh (eta_ome : eta_ome_maps) (seed_hkl_ids : list nat) :
  well_formed eta_ome seed_hkl_ids →
  Forall (λ i, (i < length (dataStore eta_ome))%nat) seed_hkl_ids ∧
  Forall (λ i, (i < length (iHKLList eta_ome))%nat) seed_hkl_ids ∧
  Forall (λ i, (iHKLList eta_ome !!! i < length (getTTh (planeData eta_ome)))%nat)
         seed_hkl_ids.
Proof.
  intros (_ & _ & _ & _ & Hseeds).
  split; [|split]; eapply Forall_impl; try exact Hseeds; simpl.
  - intros i [Hi _]. exact Hi.
  - intros i (_ & id & Hid & _). eapply lookup_lt_Some, Hid.
  - intros i (_ & id & Hid & Hlt).
    erewrite list_lookup_total_correct by exact Hid. exact Hlt.
Qed.


Lemma sample_row_max_le (k : nat) (row : list bool) :
  (foldr Nat.max 0%nat (map (λ b : bool, if b then S k else 0%nat) row) ≤ S k)%nat.
Proof. induction row as [|[] row IH]; simpl; lia. Qed.

Lemma sample_row_max (k : nat) (row : list bool) :
  existsb id row = true →
  foldr Nat.max 0%nat (map (λ b : bool, if b then S k else 0%nat) row) = S k.
Proof.
  induction row as [|b row IH]; [discriminate|]. simpl.
  pose proof (sample_row_max_le k row) as Hle. destruct b; simpl; [lia|].
  intros H. rewrite IH by assumption. reflexivity.
Qed.

Lemma sample_amax_label_rows (mask : list (list bool)) (k : nat) :
  (k ≤ (Sample.label_rows k mask).2)%nat ∧
  Sample.amax (Sample.label_rows k mask).1
  = if ((Sample.label_rows k mask).2 =? k)%nat then 0%nat
    else (Sample.label_rows k mask).2.
Proof.
  revert k. induction mask as [|row mask IH]; intros k; simpl.
  - rewrite Nat.eqb_refl. split; [lia|reflexivity].
  - destruct (existsb id row) eqn:Hrow.
    + specialize (IH (S k)). destruct (Sample.label_rows (S k) mask) as [labels n].
      simpl in *. destruct IH as [Hle Hmax]. split; [lia|]. rewrite Hmax.
      rewrite (sample_row_max k row Hrow).
      destruct (Nat.eqb_spec n (S k)), (Nat.eqb_spec n k); lia.
    + specialize (IH k). destruct (Sample.label_rows k mask) as [labels n].
      simpl in *. destruct IH as [Hle Hmax]. split; [lia|]. rewrite Hmax.
      assert (Hr : foldr Nat.max 0%nat (map (λ _ : bool, 0%nat) row) = 0%nat).
      { clear Hrow. induction row as [|b row IHr]; simpl; [reflexivity|]. exact IHr. }
      rewrite Hr. reflexivity.
Qed.

Lemma sample_fiber_conventions : FiberConventions Sample.fiber_libraries.
Proof.
  split; simpl.
  - intros mask. destruct (sample_amax_label_rows mask 0) as [_ Hmax].
    rewrite Hmax. destruct (Nat.eqb_spec (Sample.label_rows 0 mask).2 0); congruence.
  - intros _ _ index. apply length_map.
  - intros pd id tth eta ome ndiv. rewrite length_take. lia.
Qed.

Lemma sample_well_formed : well_formed Sample.eta_ome [0%nat; 1%nat].
Proof.
  unfold well_formed. simpl. repeat split; try lia.
  repeat constructor; simpl; try lia.
  - exists 0%nat. split; [reflexivity|simpl; lia].
  - exists 1%nat. split; [reflexivity|simpl; lia].
Qed.


(** The pool of that run: one fiber, from the only blob with a centre. *)
Lemma sample_pool :
  let F := Sample.fiber_libraries in
  map (blob_centres (F := F) Sample.eta_ome (of_Z 1)) [0%nat; 1%nat]
  = [[(of_Z 1, Fin (1 # 2)); (NaN, NaN)]; []] ∧
  ∃ q, generate_orientation_fibers (F := F) Sample.eta_ome (of_Z 1) [0%nat; 1%nat] 2
       = Return [q; Sample.qa].
Proof. intros F. split; [reflexivity|]. eexists. vm_compute. reflexivity. Qed.


(** ** The orchestrator *)

Section SearchMode.
Context {L : Libraries} {F : FiberLibraries} {W : Collaborators}.
Variables (cfg : config) (eta_ome : eta_ome_maps).

Lemma select_search_mode_unreadable :
  grid_unreadable cfg → select_search_mode cfg eta_ome = seeded_search cfg eta_ome.
Proof.
  intros [msg H]. unfold load_grid in H. unfold select_search_mode.
  destruct (cfg_use_quaternion_grid cfg) as [f| e |]; simpl in *.
  - destruct (np_loadtxt f) as [quats| e |]; simpl in *;
      destruct H as [H|H]; try discriminate; injection H as ->; reflexivity.
  - destruct H as [H|H]; injection H as ->; reflexivity.
  - destruct H; discriminate.
Qed.

Lemma select_search_mode_read (qgrid_f : string) (quats : list quat) :
  cfg_use_quaternion_grid cfg = Return qgrid_f →
  np_loadtxt qgrid_f = Return quats →
  select_search_mode cfg eta_ome
  = ([Info "Using %s for full quaternion search" [ArgStr qgrid_f]], Return (quats, None)).
Proof. intros Hf Hq. unfold select_search_mode. rewrite Hf. simpl. rewrite Hq. reflexivity. Qed.

Lemma seeded_search_returns (hkl_ids : list Z) (quats : list quat) :
  fancy_index (hklDataList (planeData eta_ome)) (cfg_hkl_seeds cfg) = Return hkl_ids →
  generate_orientation_fibers eta_ome (cfg_threshold cfg) (cfg_hkl_seeds cfg)
    (cfg_fiber_ndiv cfg) = Return quats →
  seeded_search cfg eta_ome
  = ([Info "Defaulting to seeded search" [];
      Info "Seeding search using hkls from %s: %s" [ArgStr (cfg_maps_file cfg); ArgOpaque];
      Call "generate_orientation_fibers"],
     Return (quats, Some hkl_ids)).
Proof. intros Hids Hfib. unfold seeded_search. rewrite Hids, Hfib. reflexivity. Qed.
End SearchMode.

Lemma cluster_and_save {A} (rc : run A) (before : list event) (file : string) :
  ((before, Return tt) : run unit) ≫= (λ _, rc ≫= λ _, emit (SaveFile file) ≫= λ _, mret tt)
  = (before ++ trace rc
       ++ match result rc with Return _ => [SaveFile file] | _ => [] end,
     result rc ≫= λ _, Return tt).
Proof.
  destruct rc as [t [a|e|]]; unfold trace, result; cbn; rewrite ?app_nil_r; reflexivity.
Qed.

Section Orchestration.
Context {L : Libraries} {F : FiberLibraries} {W : Collaborators}.
Variables (fuel : nat) (cfg : config) (profile : bool).

(** [find_orientations] once the search mode is settled: everything up
    to the clustering, the clustering itself, and the final file. *)
Lemma find_orientations_clusters (search estimate : list event)
    (quats : list quat) (hkl_ids : option (list Z)) (min_samples : float)
    (mean_rpg : Z) :
  select_search_mode cfg (load_eta_ome_maps cfg) = (search, Return (quats, hkl_ids)) →
  match hkl_ids with
  | Some hkl_ids => neighborhood_size cfg hkl_ids
  | None => mret (of_Z 1, 1)
  end = (estimate, Return (min_samples, mean_rpg)) →
  let clustered :=
    run_cluster _clustering_algorithm_dict fuel
      (paintGrid quats (load_eta_ome_maps cfg) cfg) quats
      (getQSym (initialize_experiment cfg)) cfg (Some min_samples) None None in
  find_orientations fuel cfg profile
  = (before_clustering cfg profile search estimate quats mean_rpg min_samples
       ++ trace clustered ++ after_clustering cfg (result clustered),
     result clustered ≫= λ _, Return tt).
Proof.
  intros Hsearch Hestimate clustered.
  unfold after_clustering. rewrite <- cluster_and_save.
  unfold find_orientations. cbv zeta. rewrite Hsearch.
  unfold logger_info, emit. cbn [mbind run_bind]. rewrite Hestimate.
  cbn [mbind run_bind]. fold clustered. clearbody clustered.
  unfold before_clustering.
  destruct clustered as [t [[qbar cl]|e|]], profile;
    cbn [mbind run_bind mret run_ret app];
    repeat (progress (cbn [app]; rewrite <- ?app_assoc)); reflexivity.
Qed.
End Orchestration.

Lemma calls_before_clustering (cfg : config) (profile : bool)
    (search estimate : list event) (quats : list quat) (mean_rpg : Z)
    (min_samples : float) :
  calls (before_clustering cfg profile search estimate quats mean_rpg min_samples)
  = calls search ++ calls estimate.
Proof.
  unfold before_clustering. rewrite !calls_app.
  destruct profile; simpl; rewrite app_nil_r; reflexivity.
Qed.

Lemma calls_after_clustering {A} (cfg : config) (clustered : outcome A) :
  calls (after_clustering cfg clustered) = [].
Proof. destruct clustered; reflexivity. Qed.




(** * Further properties *)

(** ** The registry *)

(** X1. The module loads: none of the six decorators trips the assertion
    on a name already taken, the registry they build is
    [_clustering_algorithm_dict], and the supported algorithms are the six
    names and no other. *)
Theorem X1_supported_algorithms {L : Libraries} :
  load_module = Return _clustering_algorithm_dict ∧
  ∀ name, name ∈ get_supported_clustering_algorithms ↔
          name ∈ ["qim-dbscan"; "omp-dbscan"; "homochoric-dbscan"; "fclusterdata";
                  "qim-fclusterdata"; "dbscan"].
Proof.
  split; [apply load_module_ok|]. intros name.
  unfold get_supported_clustering_algorithms. rewrite elem_of_dom. split.
  - intros [entry Hentry].
    apply registry_entries in Hentry
      as [[-> _]|[[-> _]|[[-> _]|[[-> _]|[[-> _]|[-> _]]]]]]; in_names.
  - rewrite !elem_of_cons, elem_of_nil.
    intros [->|[->|[->|[->|[->|[->|[]]]]]]]; eexists; vm_compute; reflexivity.
Qed.

(** X2. Registering a name succeeds only when the name is free; the new
    registry then holds the function and the fallback under that name and
    every other entry as before, and registering the same name again, with
    whatever function and fallback, fails the assertion. *)
Theorem X2_register_once (key : string) (fb : option string) (f : cluster_fn)
    (d d' : gmap string _clustering_option) :
  clustering_algorithm key fb f d = Return d' →
  d !! key = None ∧
  d' !! key = Some {| fn := f; fallback := fb |} ∧
  (∀ k, k ≠ key → d' !! k = d !! k) ∧
  (∀ fb' f', clustering_algorithm key fb' f' d' = Raise AssertionError).
Proof.
  unfold clustering_algorithm. destruct (d !! key) eqn:Hfree; [discriminate|].
  intros [= <-]. split; [reflexivity|]. split; [apply lookup_insert_eq|].
  split.
  - intros k Hk. apply lookup_insert_ne. congruence.
  - intros fb' f'. rewrite lookup_insert_eq. reflexivity.
Qed.

Lemma X2_witness :
  let L := Sample.libraries true true in
  let d' : gmap string _clustering_option :=
    <["mine" := {| fn := cluster_fcluster (L := L); fallback := Some "dbscan" |}]> ∅ in
  (∅ : gmap string _clustering_option) !! "mine" = None ∧
  d' !! "mine" = Some {| fn := cluster_fcluster (L := L); fallback := Some "dbscan" |} ∧
  (∀ k, k ≠ "mine" → d' !! k = (∅ : gmap string _clustering_option) !! k) ∧
  (∀ fb' f', clustering_algorithm "mine" fb' f' d' = Raise AssertionError).
Proof.
  intros L d'.
  apply (X2_register_once "mine" (Some "dbscan") (cluster_fcluster (L := L)) ∅ d').
  reflexivity.
Defined.

(** X3. Fallbacks do not dangle and do not loop: from every registered
    name the chain of declared fallbacks visits registered names only,
    never the same one twice, has at most four names, and is complete
    within six steps; when the name declares a fallback, the chain ends at
    ['fclusterdata'], whose function returns whatever the flags are. *)
Theorem X3_fallback_chains {L : Libraries} (name : string) (entry : _clustering_option) :
  _clustering_algorithm_dict !! name = Some entry →
  let chain := fallback_chain _clustering_algorithm_dict 6 name in
  (∀ more, fallback_chain _clustering_algorithm_dict (6 + more) name = chain) ∧
  NoDup chain ∧
  (length chain ≤ 4)%nat ∧
  Forall (λ n, is_Some (_clustering_algorithm_dict !! n)) chain ∧
  (is_Some (fallback entry) → last chain = Some "fclusterdata") ∧
  (∀ qfib_r qsym cl_radius min_samples,
     ∃ cl, cluster_fcluster qfib_r qsym cl_radius min_samples = Return cl).
Proof.
  intros Hentry chain. subst chain.
  assert (Hreg : ∀ n, n ∈ ["qim-dbscan"; "omp-dbscan"; "homochoric-dbscan";
                           "fclusterdata"; "qim-fclusterdata"; "dbscan"] →
                      is_Some (_clustering_algorithm_dict !! n)).
  { intros n. rewrite !elem_of_cons, elem_of_nil.
    intros [->|[->|[->|[->|[->|[->|[]]]]]]]; eexists; vm_compute; reflexivity. }
  apply registry_entries in Hentry
    as [[-> ->]|[[-> ->]|[[-> ->]|[[-> ->]|[[-> ->]|[-> ->]]]]]];
    (split; [intros more; vm_compute; reflexivity|]);
    (split; [vm_compute; distinct_names|]);
    (split; [vm_compute; lia|]);
    (split; [vm_compute fallback_chain; repeat constructor; apply Hreg; in_names|]);
    (split; [intros [fb Hfb]; try discriminate; vm_compute; reflexivity|]);
    intros; eexists; reflexivity.
Qed.

Lemma X3_witness :
  let L := Sample.libraries false false in
  let chain := ["omp-dbscan"; "homochoric-dbscan"; "dbscan"; "fclusterdata"] in
  fallback_chain (_clustering_algorithm_dict (L := L)) 6 "omp-dbscan" = chain ∧
  NoDup chain ∧
  last chain = Some "fclusterdata".
Proof.
  intros L chain.
  destruct (X3_fallback_chains (L := L) "omp-dbscan"
              {| fn := cluster_parallel_dbscan; fallback := Some "homochoric-dbscan" |})
    as (_ & Hnodup & _ & _ & Hlast & _); [vm_compute; reflexivity|].
  split; [vm_compute; reflexivity|]. split; [exact Hnodup|].
  apply Hlast. eexists; reflexivity.
Defined.

(** X4. A registered strategy reports unavailable exactly when its import
    flag is false, and otherwise returns: ['fclusterdata'] has no guard,
    ['omp-dbscan'] depends on parallel_dbscan alone, and the other four,
    ['qim-fclusterdata'] included, depend on sklearn. *)
Theorem X4_strategy_guards {L : Libraries} (name : string)
    (entry : _clustering_option) (qfib_r qsym : list quat) (cl_radius : float)
    (min_samples : option float) :
  _clustering_algorithm_dict !! name = Some entry →
  if guard_flag name
  then ∃ cl, fn entry qfib_r qsym cl_radius min_samples = Return cl
  else ∃ args, fn entry qfib_r qsym cl_radius min_samples
               = Raise (ClusterMethodUnavailableError args).
Proof.
  intros Hentry. unfold guard_flag.
  apply registry_entries in Hentry
    as [[-> ->]|[[-> ->]|[[-> ->]|[[-> ->]|[[-> ->]|[-> ->]]]]]];
    repeat case_decide; try congruence; simpl;
    unfold cluster_quaternion_im_dbscan, cluster_parallel_dbscan,
      cluster_homochoric_dbscan, cluster_fcluster, cluster_qim_fclusterdata,
      cluster_dbscan;
    try destruct have_sklearn; try destruct have_parallel_dbscan;
    simpl; eexists; reflexivity.
Qed.

(** Without sklearn and without parallel_dbscan, ['dbscan'] is
    unavailable and ['fclusterdata'] returns. *)
Lemma X4_witness :
  let L := Sample.libraries false false in
  (∃ args, cluster_dbscan (L := L) [Sample.qa; Sample.qb] [] (of_Z 1) None
           = Raise (ClusterMethodUnavailableError args)) ∧
  (∃ cl, cluster_fcluster (L := L) [Sample.qa; Sample.qb] [] (of_Z 1) None = Return cl).
Proof.
  intros L. split.
  - apply (X4_strategy_guards (L := L) "dbscan"
             {| fn := cluster_dbscan; fallback := Some "fclusterdata" |}
             [Sample.qa; Sample.qb] [] (of_Z 1) None).
    vm_compute. reflexivity.
  - apply (X4_strategy_guards (L := L) "fclusterdata"
             {| fn := cluster_fcluster; fallback := None |}
             [Sample.qa; Sample.qb] [] (of_Z 1) None).
    vm_compute. reflexivity.
Defined.

(** X5. With backends that follow their label conventions, the ids of
    ['qim-fclusterdata'] start at 2: the shift by one that turns the noise
    label of dbscan into 0 is applied to the labels of [fclusterdata] too,
    so that neither 0 nor 1 is ever an id of this strategy, while
    ['fclusterdata'] passes the labels on, from 1. *)
Theorem X5_qim_fclusterdata_ids_from_two
    {L : Libraries} {LC : LabelConventions L} (entry : _clustering_option)
    (qfib_r qsym : list quat) (cl_radius : float) (min_samples : option float)
    (cl : list Z) :
  _clustering_algorithm_dict !! "qim-fclusterdata" = Some entry →
  fn entry qfib_r qsym cl_radius min_samples = Return cl →
  Forall (λ id, 2 ≤ id) cl ∧
  cl = plus_one (fclusterdata (quaternion_im qfib_r)
                   (np_sin (fmul (Fin (1 # 2)) (np_radians cl_radius))) Euclidean) ∧
  cluster_fcluster qfib_r qsym cl_radius min_samples
  = Return (fclusterdata (transpose qfib_r) (np_radians cl_radius) (QuatDistance qsym)).
Proof.
  intros Hentry Hfn.
  apply registry_entries in Hentry
    as [[? _]|[[? _]|[[? _]|[[? _]|[[_ ->]|[? _]]]]]]; try discriminate.
  simpl in Hfn. split; [eapply cluster_qim_fclusterdata_ids, Hfn|].
  split; [|reflexivity].
  unfold cluster_qim_fclusterdata in Hfn. destruct have_sklearn; [|discriminate].
  simpl in Hfn. injection Hfn as <-. reflexivity.
Qed.

Lemma X5_witness :
  let L := Sample.libraries true true in
  cluster_qim_fclusterdata (L := L) [Sample.qa; Sample.qb] [] (of_Z 1) None
  = Return [2; 2] ∧
  Forall (λ id, 2 ≤ id) [2; 2].
Proof.
  intros L. split; [vm_compute; reflexivity|].
  apply (X5_qim_fclusterdata_ids_from_two
           (L := L) (LC := sample_label_conventions true true)
           {| fn := cluster_qim_fclusterdata; fallback := Some "fclusterdata" |}
           [Sample.qa; Sample.qb] [] (of_Z 1) None [2; 2]);
    vm_compute; reflexivity.
Defined.

(** ** The dispatch loop *)

Section Turn.
Variable cl_dict : gmap string _clustering_option.
Variables (algorithm : string) (qfib_r qsym : list quat) (cl_radius : float).
Variable min_samples : option float.

(** One turn of the loop on a registered name: the strategy is tried and
    called, and its answer decides the outcome there and then. *)
Lemma dispatch_registered (fuel : nat) (entry : _clustering_option) :
  cl_dict !! algorithm = Some entry →
  dispatch cl_dict (S fuel) algorithm qfib_r qsym cl_radius min_samples
  = (trying algorithm qfib_r,
     match fn entry qfib_r qsym cl_radius min_samples with
     | Return cl => Return cl
     | Raise (ClusterMethodUnavailableError _) => Raise no_msg_attribute
     | Raise e => Raise e
     | OutOfFuel => OutOfFuel
     end).
Proof.
  intros Hentry. simpl. rewrite Hentry.
  destruct (fn entry qfib_r qsym cl_radius min_samples) as [cl|[]|]; reflexivity.
Qed.

Lemma dispatch_calls (fuel : nat) :
  (length (calls (trace (dispatch cl_dict fuel algorithm qfib_r qsym cl_radius
                           min_samples))) ≤ 1)%nat.
Proof.
  destruct fuel as [|fuel]; [simpl; lia|].
  destruct (cl_dict !! algorithm) as [entry|] eqn:Hentry.
  - rewrite (dispatch_registered fuel entry Hentry). simpl. lia.
  - simpl. rewrite Hentry. simpl. lia.
Qed.

(** X6. The dispatch loop never goes round twice: with any fuel beyond
    the first unit it runs as with one unit, and it calls at most one
    clustering function. A strategy that reports unavailable does not
    bring in its fallback; the loop ends in the handler. *)
Theorem X6_dispatch_single_turn (fuel : nat) :
  dispatch cl_dict (S fuel) algorithm qfib_r qsym cl_radius min_samples
  = dispatch cl_dict 1 algorithm qfib_r qsym cl_radius min_samples ∧
  (length (calls (trace (dispatch cl_dict (S fuel) algorithm qfib_r qsym cl_radius
                           min_samples))) ≤ 1)%nat.
Proof.
  split; [|apply dispatch_calls].
  destruct (cl_dict !! algorithm) as [entry|] eqn:Hentry.
  - rewrite !(dispatch_registered _ entry Hentry). reflexivity.
  - simpl. rewrite Hentry. reflexivity.
Qed.
End Turn.

Section Outcome.
Context {L : Libraries}.
Variables (cl_dict : gmap string _clustering_option) (fuel : nat).
Variables (compl : list float) (qfib qsym : list quat) (cfg : config).
Variables (min_samples compl_thresh radius : option float).
Variable entry : _clustering_option.
Hypothesis same_length : length compl = length qfib.
Hypothesis two_or_more :
  (2 ≤ count_true (above (threshold_of cfg compl_thresh) compl))%nat.
Hypothesis registered : cl_dict !! cfg_algorithm cfg = Some entry.

(** X7. With two orientations or more above the threshold, when the
    configured strategy returns an assignment, [run_cluster] returns that
    assignment as it is, with the centroids [compute_centroids] gives for
    it on the orientations above the threshold (an error of
    [compute_centroids] is the error of [run_cluster]); the strategy is
    the only clustering function called, it is given exactly those
    orientations, and the assignment is written to [clusters.dat] before
    the centroids are computed. *)
Theorem X7_run_cluster_passes_assignment_on (cl : list Z) :
  let qfib_r := select (above (threshold_of cfg compl_thresh) compl) qfib in
  fn entry qfib_r qsym (default (cfg_radius cfg) radius) min_samples = Return cl →
  let r := run_cluster cl_dict (S fuel) compl qfib qsym cfg min_samples
             compl_thresh radius in
  result r = (qbar ← compute_centroids qfib_r cl qsym; Return (qbar, cl)) ∧
  calls (trace r) = [cfg_algorithm cfg] ∧
  length qfib_r = count_true (above (threshold_of cfg compl_thresh) compl) ∧
  ∃ rest,
    trace r
    = Info "Feeding %d orientations above %.1f%% to clustering"
        [ArgInt (Z.of_nat (length qfib_r));
         ArgNum (fmul (of_Z 100) (threshold_of cfg compl_thresh))]
      :: trying (cfg_algorithm cfg) qfib_r
      ++ [Info "clustering done in %f seconds, computing centroids" [ArgOpaque];
          SaveFile (os_path_join (cfg_working_dir cfg) "clusters.dat")]
      ++ rest.
Proof.
  intros qfib_r Hfn r. subst r.
  rewrite run_cluster_many by assumption. fold qfib_r.
  rewrite (dispatch_registered _ _ _ _ _ _ fuel entry registered), Hfn.
  split; [|split; [|split]].
  - simpl. destruct (compute_centroids qfib_r cl qsym); reflexivity.
  - simpl. destruct (compute_centroids qfib_r cl qsym); reflexivity.
  - apply length_select. rewrite length_above. assumption.
  - simpl. destruct (compute_centroids qfib_r cl qsym); eexists; reflexivity.
Qed.

(** X8. An exception of the configured strategy other than
    [ClusterMethodUnavailableError] is not caught: [run_cluster] raises it
    as it is, right after the call, and writes no file. *)
Theorem X8_run_cluster_lets_errors_through (e : exn) :
  let qfib_r := select (above (threshold_of cfg compl_thresh) compl) qfib in
  fn entry qfib_r qsym (default (cfg_radius cfg) radius) min_samples = Raise e →
  (∀ args, e ≠ ClusterMethodUnavailableError args) →
  run_cluster cl_dict (S fuel) compl qfib qsym cfg min_samples compl_thresh radius
  = (Info "Feeding %d orientations above %.1f%% to clustering"
       [ArgInt (Z.of_nat (length qfib_r));
        ArgNum (fmul (of_Z 100) (threshold_of cfg compl_thresh))]
     :: trying (cfg_algorithm cfg) qfib_r,
     Raise e).
Proof.
  intros qfib_r Hfn Hother.
  rewrite run_cluster_many by assumption. fold qfib_r.
  rewrite (dispatch_registered _ _ _ _ _ _ fuel entry registered), Hfn.
  destruct e; try reflexivity. exfalso. eapply Hother. reflexivity.
Qed.
End Outcome.

(** ['dbscan'] on the two orientations above 0.7 out of three. *)
Lemma X7_witness :
  let L := Sample.libraries true true in
  let r := run_cluster (L := L) (_clustering_algorithm_dict (L := L)) 1
             [of_Z 1; Fin (1 # 2); of_Z 1] [Sample.qa; Sample.qb; Sample.qc] []
             (Sample.cfg "dbscan") (Some (of_Z 2)) None None in
  result r = Return ([Sample.qc], [0; 1]) ∧ calls (trace r) = ["dbscan"].
Proof.
  intros L.
  destruct (X7_run_cluster_passes_assignment_on
              (L := L) (_clustering_algorithm_dict (L := L)) 0
              [of_Z 1; Fin (1 # 2); of_Z 1] [Sample.qa; Sample.qb; Sample.qc] []
              (Sample.cfg "dbscan") (Some (of_Z 2)) None None
              {| fn := cluster_dbscan; fallback := Some "fclusterdata" |}
              eq_refl ltac:(vm_compute; lia) ltac:(vm_compute; reflexivity)
              [0; 1] ltac:(vm_compute; reflexivity))
    as (Hresult & Hcalls & _).
  split; [exact Hresult|exact Hcalls].
Defined.

(** A registry whose only strategy fails with [ValueError] and declares a
    fallback all the same. *)
Lemma X8_witness :
  let L := Sample.libraries true true in
  let broken : _clustering_option :=
    {| fn := λ _ _ _ _, Raise (ValueError "singular matrix");
       fallback := Some "dbscan" |} in
  result (run_cluster (L := L) {["broken" := broken]} 1
            [of_Z 1; of_Z 1] [Sample.qa; Sample.qb] []
            (Sample.cfg "broken") None None None)
  = Raise (ValueError "singular matrix").
Proof.
  intros L broken.
  rewrite (X8_run_cluster_lets_errors_through
             (L := L) {["broken" := broken]} 0
             [of_Z 1; of_Z 1] [Sample.qa; Sample.qb] []
             (Sample.cfg "broken") None None None broken
             eq_refl ltac:(vm_compute; lia) ltac:(vm_compute; reflexivity)
             (ValueError "singular matrix") eq_refl ltac:(discriminate)).
  reflexivity.
Defined.

(** ** The threshold *)

Lemma float_gt_false_iff (x t : Q) : float_gt (Fin x) (Fin t) = false ↔ (x <= t)%Q.
Proof.
  unfold float_gt. rewrite negb_false_iff. apply Qle_bool_iff.
Qed.

(** X9. The comparison with the threshold is strict and false on NaN: an
    orientation whose completeness equals the threshold, lies below it or
    is NaN is left out, and if every orientation is so, or if the threshold
    itself is NaN, [run_cluster] returns the empty result whatever the
    registry and the algorithm name. *)
Theorem X9_threshold_is_strict
    {L : Libraries} (cl_dict : gmap string _clustering_option) (fuel : nat)
    (compl : list float) (qfib qsym : list quat) (cfg : config)
    (min_samples compl_thresh radius : option float) :
  (threshold_of cfg compl_thresh = NaN ∨
   ∃ t, threshold_of cfg compl_thresh = Fin t ∧
        Forall (λ c, c = NaN ∨ ∃ x, c = Fin x ∧ (x <= t)%Q) compl) →
  run_cluster cl_dict fuel compl qfib qsym cfg min_samples compl_thresh radius
  = (closing_log cfg compl_thresh radius 0, Return ([], [])).
Proof.
  intros H. apply run_cluster_zero, count_true_none.
  destruct H as [-> | (t & -> & Hall)].
  - apply Forall_true. intros [x|]; reflexivity.
  - eapply Forall_impl; [exact Hall|]. simpl.
    intros c [-> | (x & -> & Hle)]; [reflexivity|]. apply float_gt_false_iff, Hle.
Qed.

(** Completeness 0.7 (written 7/10 and 14/20) and NaN against the
    threshold 0.7. *)
Lemma X9_witness :
  let L := Sample.libraries true true in
  run_cluster (L := L) (_clustering_algorithm_dict (L := L)) 1
    [Fin (7 # 10); NaN; Fin (14 # 20)] [Sample.qa; Sample.qb; Sample.qc] []
    (Sample.cfg "dbscan") None None None
  = (closing_log (Sample.cfg "dbscan") None None 0, Return ([], [])).
Proof.
  intros L. apply (X9_threshold_is_strict (L := L)). right. exists (7 # 10).
  split; [reflexivity|].
  apply Forall_cons; split; [|apply Forall_cons; split; [|apply Forall_cons; split]].
  - right. exists (7 # 10). split; [reflexivity|]. vm_compute. discriminate.
  - left. reflexivity.
  - right. exists (14 # 20). split; [reflexivity|]. vm_compute. discriminate.
  - apply Forall_nil. exact I.
Defined.

(** ** Centroids: edge cases *)

Lemma np_unique_nonempty (cl : list Z) (c : Z) :
  c ∈ cl → ∃ c0 rest, np_unique cl = c0 :: rest ∧ c0 ≤ c ∧ c0 ∈ cl.
Proof.
  intros Hc. pose proof (np_unique_sorted cl) as Hsorted.
  apply elem_of_np_unique in Hc.
  destruct (np_unique cl) as [|c0 rest] eqn:Hu; [apply elem_of_nil in Hc; contradiction|].
  exists c0, rest. split; [reflexivity|].
  pose proof (sorted_head_least _ _ Hsorted) as Hleast. rewrite Forall_forall in Hleast.
  split; [apply Hleast, Hc|]. apply elem_of_np_unique. rewrite Hu. left.
Qed.

(** X10. A negative id anywhere in the assignment trips the assertion of
    [compute_centroids], whatever the orientations are and before any of
    them is read: the assertion looks at the smallest id. *)
Theorem X10_negative_id_fails_assertion {L : Libraries}
    (qfib_r : list quat) (cl : list Z) (qsym : list quat) (c : Z) :
  c ∈ cl → c < 0 → compute_centroids qfib_r cl qsym = Raise AssertionError.
Proof.
  intros Hc Hneg. destruct (np_unique_nonempty cl c Hc) as (c0 & rest & Hu & Hle & _).
  unfold compute_centroids. rewrite Hu.
  destruct (Z.ltb_spec c0 0) as [_|Hge]; [reflexivity|lia].
Qed.

(** The raw dbscan label of noise, -1, at the end of an assignment; the
    orientation array is even of another length. *)
Lemma X10_witness :
  compute_centroids (L := Sample.libraries true true) [Sample.qa] [2; 1; -1] []
  = Raise AssertionError.
Proof.
  apply (X10_negative_id_fails_assertion (L := Sample.libraries true true)
           [Sample.qa] [2; 1; -1] [] (-1)).
  - in_names.
  - lia.
Defined.

(** X11. An assignment that is all noise is not an error: when every id
    is 0, [compute_centroids] returns an array without columns. *)
Theorem X11_all_noise_gives_no_centroid {L : Libraries}
    (qfib_r : list quat) (cl : list Z) (qsym : list quat) :
  length qfib_r = length cl → cl ≠ [] → Forall (λ id, id = 0) cl →
  compute_centroids qfib_r cl qsym = Return [].
Proof.
  intros Hlen Hne Hzero. rewrite Forall_forall in Hzero.
  destruct cl as [|c cl']; [contradiction|].
  destruct (np_unique_nonempty (c :: cl') c ltac:(left)) as (c0 & rest & Hu & _ & Hc0).
  apply Hzero in Hc0. subst c0.
  rewrite (compute_centroids_ids qfib_r (c :: cl') qsym 0 rest Hlen Hu ltac:(lia)).
  simpl. destruct rest as [|c1 rest]; [reflexivity|]. exfalso.
  pose proof (np_unique_sorted (c :: cl')) as Hsorted. rewrite Hu in Hsorted.
  apply sorted_tail_positive in Hsorted. rewrite Forall_forall in Hsorted.
  assert (Hc1 : c1 ∈ c :: cl').
  { apply elem_of_np_unique. rewrite Hu. right. left. }
  specialize (Hsorted c1 ltac:(left)). apply Hzero in Hc1. lia.
Qed.

Lemma X11_witness :
  compute_centroids (L := Sample.libraries true true)
    [Sample.qa; Sample.qb; Sample.qc] [0; 0; 0] []
  = Return [].
Proof.
  apply (X11_all_noise_gives_no_centroid (L := Sample.libraries true true)).
  - reflexivity.
  - discriminate.
  - repeat constructor.
Defined.

(** ** ['fclusterdata'] from end to end *)

Lemma run_cluster_strategy_returns {L : Libraries}
    (cl_dict : gmap string _clustering_option) (fuel : nat)
    (compl : list float) (qfib qsym : list quat) (cfg : config)
    (min_samples compl_thresh radius : option float)
    (entry : _clustering_option) (cl : list Z) :
  length compl = length qfib →
  (2 ≤ count_true (above (threshold_of cfg compl_thresh) compl))%nat →
  cl_dict !! cfg_algorithm cfg = Some entry →
  let qfib_r := select (above (threshold_of cfg compl_thresh) compl) qfib in
  fn entry qfib_r qsym (default (cfg_radius cfg) radius) min_samples = Return cl →
  let r := run_cluster cl_dict (S fuel) compl qfib qsym cfg min_samples
             compl_thresh radius in
  result r = (qbar ← compute_centroids qfib_r cl qsym; Return (qbar, cl)) ∧
  calls (trace r) = [cfg_algorithm cfg].
Proof.
  intros Hlen Htwo Hentry qfib_r Hfn r. subst r.
  rewrite run_cluster_many by assumption. fold qfib_r.
  rewrite (dispatch_registered _ _ _ _ _ _ fuel entry Hentry), Hfn. simpl.
  destruct (compute_centroids qfib_r cl qsym); split; reflexivity.
Qed.

(** X12. ['fclusterdata'] needs no optional module, and with a backend
    that labels every observation from 1 it cannot fail: configured with
    two orientations or more above the threshold, [run_cluster] returns,
    whatever the import flags; the assignment has one id per orientation
    above the threshold, every id positive, and there are as many
    centroids as distinct ids, at least one. *)
Theorem X12_fclusterdata_always_clusters
    {L : Libraries} {LC : LabelConventions L} {LL : LabelLengths L}
    (fuel : nat) (compl : list float) (qfib qsym : list quat) (cfg : config)
    (min_samples compl_thresh radius : option float) :
  cfg_algorithm cfg = "fclusterdata" →
  length compl = length qfib →
  (2 ≤ count_true (above (threshold_of cfg compl_thresh) compl))%nat →
  let r := run_cluster _clustering_algorithm_dict (S fuel) compl qfib qsym cfg
             min_samples compl_thresh radius in
  ∃ centroids cl,
    result r = Return (centroids, cl) ∧
    calls (trace r) = ["fclusterdata"] ∧
    length cl = count_true (above (threshold_of cfg compl_thresh) compl) ∧
    Forall (λ id, 0 < id) cl ∧
    length centroids = length (np_unique cl) ∧
    (1 ≤ length centroids)%nat.
Proof.
  intros Halg Hlen Htwo r.
  set (qfib_r := select (above (threshold_of cfg compl_thresh) compl) qfib).
  set (cl := fclusterdata (transpose qfib_r)
               (np_radians (default (cfg_radius cfg) radius)) (QuatDistance qsym)).
  assert (Hcount : length qfib_r = count_true (above (threshold_of cfg compl_thresh) compl)).
  { apply length_select. rewrite length_above. assumption. }
  assert (Hcl : length cl = length qfib_r).
  { unfold cl, transpose. rewrite fclusterdata_length, length_map. reflexivity. }
  assert (Hpos : Forall (λ id, 1 ≤ id) cl) by apply fclusterdata_labels.
  destruct (run_cluster_strategy_returns _clustering_algorithm_dict fuel compl qfib
              qsym cfg min_samples compl_thresh radius
              {| fn := cluster_fcluster; fallback := None |} cl Hlen Htwo)
    as [Hresult Hcalls]; [rewrite Halg; vm_compute; reflexivity|reflexivity|].
  fold qfib_r in Hresult. fold r in Hresult, Hcalls.
  destruct cl as [|c cl'] eqn:Hcl_eq; [simpl in Hcl; lia|].
  destruct (np_unique_nonempty (c :: cl') c ltac:(left)) as (c0 & rest & Hu & _ & Hc0).
  assert (Hc0pos : 1 ≤ c0) by (rewrite Forall_forall in Hpos; auto).
  rewrite (compute_centroids_ids qfib_r (c :: cl') qsym c0 rest) in Hresult
    by (congruence || lia).
  destruct (Z.eqb_spec c0 0) as [?|_]; [lia|].
  eexists _, _. split; [exact Hresult|]. split; [rewrite Hcalls, Halg; reflexivity|].
  split; [congruence|]. split; [eapply Forall_impl; [exact Hpos|]; simpl; intros; lia|].
  rewrite Hu, length_map. split; [reflexivity|simpl; lia].
Qed.

Lemma sample_label_lengths (sklearn parallel : bool) :
  LabelLengths (Sample.libraries sklearn parallel).
Proof.
  split; simpl.
  - intros [|x X] _ _ _; simpl; [reflexivity|]. rewrite length_map. reflexivity.
  - intros X _ _. apply length_map.
  - intros X _ _. apply length_map.
Qed.

(** Neither sklearn nor parallel_dbscan: ['fclusterdata'] clusters. *)
Lemma X12_witness :
  let L := Sample.libraries false false in
  let r := run_cluster (L := L) (_clustering_algorithm_dict (L := L)) 1
             [of_Z 1; of_Z 1; Fin (1 # 2)] [Sample.qa; Sample.qb; Sample.qc] []
             (Sample.cfg "fclusterdata") None None None in
  ∃ centroids cl,
    result r = Return (centroids, cl) ∧
    calls (trace r) = ["fclusterdata"] ∧
    length cl = 2%nat ∧
    Forall (λ id, 0 < id) cl ∧
    length centroids = length (np_unique cl) ∧
    (1 ≤ length centroids)%nat.
Proof.
  intros L.
  apply (X12_fclusterdata_always_clusters
           (L := L) (LC := sample_label_conventions false false)
           (LL := sample_label_lengths false false) 0
           [of_Z 1; of_Z 1; Fin (1 # 2)] [Sample.qa; Sample.qb; Sample.qc] []
           (Sample.cfg "fclusterdata") None None None).
  - reflexivity.
  - reflexivity.
  - vm_compute. lia.
Defined.

(** ** Fiber generation: size, composition, errors *)

Section PoolFacts.
Context {F : FiberLibraries} {FC : FiberConventions F}.
Variables (eta_ome : eta_ome_maps) (threshold : float) (fiber_ndiv : nat).

Lemma generate_orientation_fibers_pool (seed_hkl_ids : list nat) :
  well_formed eta_ome seed_hkl_ids →
  seed_hkl_ids ≠ [] →
  generate_orientation_fibers eta_ome threshold seed_hkl_ids fiber_ndiv
  = Return (quaternion_pool eta_ome threshold fiber_ndiv seed_hkl_ids).
Proof.
  intros Hwf Hne.
  destruct (well_formed_tTh _ _ Hwf) as (Hdata & Hids & HtTh).
  destruct Hwf as (Hom & Het & HomE & HetE & _).
  unfold generate_orientation_fibers.
  rewrite (fancy_index_total _ _ Hids). cbn [mbind outcome_bind].
  rewrite !index_lt by lia. cbn [mbind outcome_bind].
  rewrite (label_spots_total _ _ _ Hdata). cbn [mbind outcome_bind].
  rewrite length_map.
  pose proof (fiber_loop_total eta_ome threshold fiber_ndiv Hom Het HomE HetE
                seed_hkl_ids [] [] eq_refl HtTh) as Hloop.
  cbn [app length] in Hloop. rewrite Hloop. cbn [mbind outcome_bind].
  destruct seed_hkl_ids; [contradiction|reflexivity].
Qed.

Lemma well_formed_app (seeds1 seeds2 : list nat) :
  well_formed eta_ome (seeds1 ++ seeds2) ↔
  well_formed eta_ome seeds1 ∧ well_formed eta_ome seeds2.
Proof. unfold well_formed. rewrite Forall_app. tauto. Qed.

Lemma length_seed_fibers (i : nat) :
  (length (seed_fibers eta_ome threshold fiber_ndiv i)
   ≤ fiber_ndiv * length (blob_centres eta_ome threshold i))%nat.
Proof.
  unfold seed_fibers.
  induction (blob_centres eta_ome threshold i) as [|com centres IH]; simpl; [lia|].
  rewrite length_app.
  assert (Hfib : (length (blob_fiber eta_ome fiber_ndiv (iHKLList eta_ome !!! i) com)
                  ≤ fiber_ndiv)%nat).
  { unfold blob_fiber. destruct (isnan com.1); [simpl; lia|].
    apply discrete_fiber_length. }
  lia.
Qed.

(** X13. On well-formed maps with at least one seed reflection the pool
    has at most [fiber_ndiv] columns per blob, the blobs counted over all
    the seed maps: the buffers of [fiber_ndiv * numSpots] columns are
    never exceeded. *)
Theorem X13_pool_size_bound (seed_hkl_ids : list nat) :
  well_formed eta_ome seed_hkl_ids →
  seed_hkl_ids ≠ [] →
  ∃ pool,
    generate_orientation_fibers eta_ome threshold seed_hkl_ids fiber_ndiv = Return pool ∧
    (length pool
     ≤ fiber_ndiv
       * sum_list (map (λ i, length (blob_centres eta_ome threshold i)) seed_hkl_ids))%nat.
Proof.
  intros Hwf Hne. eexists. split; [apply generate_orientation_fibers_pool; assumption|].
  unfold quaternion_pool. clear Hwf Hne.
  induction seed_hkl_ids as [|i seeds IH]; simpl; [lia|].
  rewrite length_app. pose proof (length_seed_fibers i). lia.
Qed.

(** X14. The pool is built seed by seed, in the order of the seeds: for
    two non-empty lists of seeds on well-formed maps, the pool of their
    concatenation is the pool of the first followed by the pool of the
    second. *)
Theorem X14_pool_of_concatenated_seeds (seeds1 seeds2 : list nat) :
  well_formed eta_ome (seeds1 ++ seeds2) →
  seeds1 ≠ [] → seeds2 ≠ [] →
  generate_orientation_fibers eta_ome threshold (seeds1 ++ seeds2) fiber_ndiv
  = (pool1 ← generate_orientation_fibers eta_ome threshold seeds1 fiber_ndiv;
     pool2 ← generate_orientation_fibers eta_ome threshold seeds2 fiber_ndiv;
     Return (pool1 ++ pool2)).
Proof.
  intros Hwf H1 H2. pose proof Hwf as Hparts. apply well_formed_app in Hparts as [Hwf1 Hwf2].
  rewrite !generate_orientation_fibers_pool; try assumption.
  - simpl. unfold quaternion_pool. rewrite map_app, concat_app. reflexivity.
  - destruct seeds1; [contradiction|discriminate].
Qed.
End PoolFacts.

Lemma index_ge {A} (a : list A) (i : nat) :
  (length a ≤ i)%nat → index a i = Raise (IndexError "index out of range").
Proof. intros Hi. unfold index. rewrite lookup_ge_None_2 by assumption. reflexivity. Qed.

Lemma fancy_index_out_of_range {A} (a : list A) (ids : list nat) (i : nat) :
  i ∈ ids → (length a ≤ i)%nat →
  fancy_index a ids = Raise (IndexError "index out of range").
Proof.
  intros Hi Hout. induction ids as [|j ids IH]; [apply elem_of_nil in Hi; contradiction|].
  simpl. unfold index at 1. destruct (a !! j) as [x|] eqn:Hj; [|reflexivity].
  simpl. apply elem_of_cons in Hi as [->|Hi].
  - apply lookup_lt_Some in Hj. lia.
  - rewrite IH by assumption. reflexivity.
Qed.

Lemma fancy_index_cases {A} (a : list A) (ids : list nat) :
  (∃ xs, fancy_index a ids = Return xs) ∨
  fancy_index a ids = Raise (IndexError "index out of range").
Proof.
  induction ids as [|j ids IH]; simpl; [left; eexists; reflexivity|].
  unfold index. destruct (a !! j) as [x|]; [|right; reflexivity]. simpl.
  destruct IH as [[xs ->]| ->]; [left; eexists; reflexivity|right; reflexivity].
Qed.

(** X15. Maps that cannot be read make [generate_orientation_fibers]
    raise [IndexError] before any map is labelled: a seed index beyond
    [iHKLList], or fewer than two grid values in [omegas] or in [etas]. *)
Theorem X15_unreadable_maps_raise_index_error {F : FiberLibraries}
    (eta_ome : eta_ome_maps) (threshold : float) (seed_hkl_ids : list nat)
    (fiber_ndiv : nat) :
  (∃ i, i ∈ seed_hkl_ids ∧ (length (iHKLList eta_ome) ≤ i)%nat) ∨
  (length (omegas eta_ome) < 2)%nat ∨
  (length (etas eta_ome) < 2)%nat →
  generate_orientation_fibers eta_ome threshold seed_hkl_ids fiber_ndiv
  = Raise (IndexError "index out of range").
Proof.
  intros H. unfold generate_orientation_fibers.
  destruct (fancy_index_cases (iHKLList eta_ome) seed_hkl_ids) as [[ids Hids]|Hids];
    [|rewrite Hids; reflexivity].
  destruct H as [(i & Hi & Hout)|H].
  { rewrite (fancy_index_out_of_range _ _ i Hi Hout) in Hids. discriminate. }
  rewrite Hids. cbn [mbind outcome_bind].
  destruct (decide (length (omegas eta_ome) < 2)%nat) as [Hom|Hom].
  { rewrite (index_ge (omegas eta_ome) 1) by lia. reflexivity. }
  rewrite !(index_lt (omegas eta_ome)) by lia. cbn [mbind outcome_bind].
  rewrite (index_ge (etas eta_ome) 1) by lia. reflexivity.
Qed.

(** Two blobs on the first map, none on the second, [fiber_ndiv = 2]. *)
Lemma X13_witness :
  let F := Sample.fiber_libraries in
  ∃ pool,
    generate_orientation_fibers (F := F) Sample.eta_ome (of_Z 1) [0%nat; 1%nat] 2
    = Return pool ∧
    (length pool ≤ 2 * (2 + (0 + 0)))%nat.
Proof.
  intros F.
  apply (X13_pool_size_bound (F := F) (FC := sample_fiber_conventions)
           Sample.eta_ome (of_Z 1) 2 [0%nat; 1%nat]).
  - exact sample_well_formed.
  - discriminate.
Defined.

Lemma X14_witness :
  let F := Sample.fiber_libraries in
  generate_orientation_fibers (F := F) Sample.eta_ome (of_Z 1) ([0%nat] ++ [1%nat]) 2
  = (pool1 ← generate_orientation_fibers (F := F) Sample.eta_ome (of_Z 1) [0%nat] 2;
     pool2 ← generate_orientation_fibers (F := F) Sample.eta_ome (of_Z 1) [1%nat] 2;
     Return (pool1 ++ pool2)).
Proof.
  intros F.
  apply (X14_pool_of_concatenated_seeds (F := F) (FC := sample_fiber_conventions)
           Sample.eta_ome (of_Z 1) 2 [0%nat] [1%nat]).
  - exact sample_well_formed.
  - discriminate.
  - discriminate.
Defined.

(** The maps hold two reflections; seed 5 is asked for. *)
Lemma X15_witness :
  generate_orientation_fibers (F := Sample.fiber_libraries) Sample.eta_ome (of_Z 1)
    [0%nat; 5%nat] 2
  = Raise (IndexError "index out of range").
Proof.
  apply (X15_unreadable_maps_raise_index_error (F := Sample.fiber_libraries)).
  left. exists 5%nat. split; [in_names|simpl; lia].
Defined.

(** ** The estimate: what is counted *)

Lemma length_filter_elem_of_cons (sim : list Z) (h : Z) (hkl_ids : list Z) :
  h ∉ hkl_ids →
  length (filter (λ x, x ∈ h :: hkl_ids) sim)
  = (length (filter (λ x, x = h) sim) + length (filter (λ x, x ∈ hkl_ids) sim))%nat.
Proof.
  intros Hfresh. induction sim as [|x sim IH]; [reflexivity|].
  rewrite !filter_cons.
  destruct (decide (x = h)) as [->|Hne].
  - rewrite decide_True by left. rewrite (decide_False (P := h ∈ hkl_ids)) by assumption.
    simpl. rewrite IH. reflexivity.
  - destruct (decide (x ∈ hkl_ids)) as [Hin|Hout].
    + rewrite decide_True by (right; assumption). simpl. rewrite IH. lia.
    + rewrite decide_False; [exact IH|].
      rewrite elem_of_cons. tauto.
Qed.

(** X16. What the estimate counts as seed reflections of a grain is the
    sum, over the seed ids, of the simulated reflections with that id.
    When the seed ids are distinct this is the number of simulated
    reflections that lie on a seed id, and so at most the number of
    reflections of the grain; an id listed twice is counted twice. *)
Theorem X16_seed_reflections_counted {W : Collaborators} (hkl_ids : list Z) (i : nat) :
  (∀ h, seed_reflections (h :: hkl_ids) i
        = count_eq (simulateGVecs i) h + seed_reflections hkl_ids i) ∧
  (NoDup hkl_ids →
   seed_reflections hkl_ids i = Z.of_nat (reflections_on_seeds hkl_ids i) ∧
   0 ≤ seed_reflections hkl_ids i ≤ total_reflections i).
Proof.
  split; [reflexivity|]. intros Hnodup.
  assert (Heq : seed_reflections hkl_ids i = Z.of_nat (reflections_on_seeds hkl_ids i)).
  { unfold seed_reflections, reflections_on_seeds.
    induction Hnodup as [|h ids Hfresh _ IH]; simpl.
    - induction (simulateGVecs i) as [|x sim IHs]; [reflexivity|].
      rewrite filter_cons, decide_False; [exact IHs|]. apply not_elem_of_nil.
    - rewrite IH, (length_filter_elem_of_cons _ _ _ Hfresh). unfold count_eq. lia. }
  split; [exact Heq|]. rewrite Heq. unfold reflections_on_seeds, total_reflections.
  pose proof (length_filter (λ h, h ∈ hkl_ids) (simulateGVecs i)). lia.
Qed.

(** Seeds 10 and 11 on a grain with reflections 10, 11, 12, 11: three on
    the seeds; with 11 listed twice, five. *)
Lemma X16_witness :
  let W := Sample.collaborators in
  seed_reflections (W := W) [10; 11] 0 = 3 ∧
  0 ≤ seed_reflections (W := W) [10; 11] 0 ≤ total_reflections (W := W) 0 ∧
  seed_reflections (W := W) [11; 10; 11] 0 = 5.
Proof.
  intros W.
  destruct (X16_seed_reflections_counted (W := W) [10; 11] 0) as [Htwice Hdistinct].
  destruct Hdistinct as [Heq Hbound]; [distinct_names|].
  split; [rewrite Heq; vm_compute; reflexivity|]. split; [exact Hbound|].
  rewrite Htwice. vm_compute. reflexivity.
Defined.

(** ** The orchestrator: failures and files *)

Section Failures.
Context {L : Libraries} {F : FiberLibraries} {W : Collaborators}.
Variables (fuel : nat) (cfg : config) (profile : bool).

(** X17. Only [IOError] and [ValueError] turn the grid search into a
    seeded search: any other exception raised while the grid file is
    looked up or loaded ends [find_orientations] with that exception,
    before anything is generated, scored or saved. *)
Theorem X17_other_grid_errors_are_fatal (e : exn) :
  load_grid cfg = Raise e →
  (∀ msg, e ≠ IOError msg) → (∀ msg, e ≠ ValueError msg) →
  find_orientations fuel cfg profile
  = ([Info "beginning analysis '%s'" [ArgStr (cfg_analysis_name cfg)]], Raise e).
Proof.
  intros Hload Hio Hvalue.
  assert (Hmode : select_search_mode cfg (load_eta_ome_maps cfg) = ([], Raise e)).
  { unfold select_search_mode. unfold load_grid in Hload.
    destruct (cfg_use_quaternion_grid cfg) as [f|e'|]; simpl in *.
    - rewrite Hload. simpl.
      destruct e; try reflexivity; exfalso; [eapply Hvalue|eapply Hio]; reflexivity.
    - injection Hload as ->.
      destruct e; try reflexivity; exfalso; [eapply Hvalue|eapply Hio]; reflexivity.
    - discriminate. }
  unfold find_orientations. cbv zeta. rewrite Hmode. reflexivity.
Qed.


(** X19. A seeded search without seed reflections fails: when the grid
    file cannot be read and [hkl_seeds] is empty, [find_orientations]
    raises the [ValueError] of the fiber generator, and nothing is scored
    or saved. *)
Theorem X19_seeded_search_needs_a_seed :
  grid_unreadable cfg →
  cfg_hkl_seeds cfg = [] →
  (2 ≤ length (omegas (load_eta_ome_maps cfg)))%nat →
  (2 ≤ length (etas (load_eta_ome_maps cfg)))%nat →
  find_orientations fuel cfg profile
  = ([Info "beginning analysis '%s'" [ArgStr (cfg_analysis_name cfg)];
      Info "Defaulting to seeded search" [];
      Info "Seeding search using hkls from %s: %s" [ArgStr (cfg_maps_file cfg); ArgOpaque];
      Call "generate_orientation_fibers"],
     Raise (ValueError "need at least one array to concatenate")).
Proof.
  intros Hgrid Hseeds Hom Het.
  assert (Hfibers :
    generate_orientation_fibers (load_eta_ome_maps cfg) (cfg_threshold cfg) []
      (cfg_fiber_ndiv cfg)
    = Raise (ValueError "need at least one array to concatenate")).
  { unfold generate_orientation_fibers. simpl fancy_index. cbn [mbind outcome_bind].
    rewrite !index_lt by lia. reflexivity. }
  unfold find_orientations. cbv zeta.
  rewrite (select_search_mode_unreadable cfg _ Hgrid).
  unfold seeded_search. rewrite Hseeds, Hfibers. reflexivity.
Qed.
End Failures.

(** Reading the configured grid raises [RuntimeError]. *)
Lemma X17_witness :
  let L := Sample.libraries true true in
  let F := Sample.fiber_libraries in
  let W := Sample.collaborators in
  let cfg := {|
    cfg_algorithm := "dbscan"; cfg_radius := of_Z 1; cfg_completeness := Fin (7 # 10);
    cfg_working_dir := "work";
    cfg_use_quaternion_grid := Raise (RuntimeError "bad configuration");
    cfg_hkl_seeds := [0%nat]; cfg_fiber_ndiv := 2; cfg_threshold := of_Z 1;
    cfg_maps_file := "maps.cpl"; cfg_analysis_name := "analysis";
    cfg_multiprocessing := 1 |} in
  find_orientations (L := L) (F := F) (W := W) 1 cfg false
  = ([Info "beginning analysis '%s'" [ArgStr "analysis"]],
     Raise (RuntimeError "bad configuration")).
Proof.
  intros L F W cfg.
  apply (X17_other_grid_errors_are_fatal (L := L) (F := F) (W := W) 1 cfg false
           (RuntimeError "bad configuration")).
  - reflexivity.
  - discriminate.
  - discriminate.
Defined.


(** No grid file and no seed. *)
Lemma X19_witness :
  let L := Sample.libraries true true in
  let F := Sample.fiber_libraries in
  let W := Sample.collaborators in
  let cfg := {|
    cfg_algorithm := "dbscan"; cfg_radius := of_Z 1; cfg_completeness := Fin (7 # 10);
    cfg_working_dir := "work";
    cfg_use_quaternion_grid := Raise (IOError "no grid file");
    cfg_hkl_seeds := []; cfg_fiber_ndiv := 2; cfg_threshold := of_Z 1;
    cfg_maps_file := "maps.cpl"; cfg_analysis_name := "analysis";
    cfg_multiprocessing := 1 |} in
  result (find_orientations (L := L) (F := F) (W := W) 1 cfg false)
  = Raise (ValueError "need at least one array to concatenate").
Proof.
  intros L F W cfg.
  rewrite (X19_seeded_search_needs_a_seed (L := L) (F := F) (W := W) 1 cfg false).
  - reflexivity.
  - exists "no grid file". left. reflexivity.
  - reflexivity.
  - simpl. lia.
  - simpl. lia.
Defined.

(** ** An unknown algorithm *)

(** X20. With two orientations or more above the threshold, an algorithm
    name that is not registered makes [run_cluster] raise [RuntimeError]
    with the name in its message; no clustering function is called and no
    file is written. *)
Theorem X20_unknown_algorithm_is_reported
    {L : Libraries} (cl_dict : gmap string _clustering_option) (fuel : nat)
    (compl : list float) (qfib qsym : list quat) (cfg : config)
    (min_samples compl_thresh radius : option float) :
  length compl = length qfib →
  (2 ≤ count_true (above (threshold_of cfg compl_thresh) compl))%nat →
  cl_dict !! cfg_algorithm cfg = None →
  run_cluster cl_dict (S fuel) compl qfib qsym cfg min_samples compl_thresh radius
  = ([Info "Feeding %d orientations above %.1f%% to clustering"
        [ArgInt (Z.of_nat (count_true (above (threshold_of cfg compl_thresh) compl)));
         ArgNum (fmul (of_Z 100) (threshold_of cfg compl_thresh))]],
     Raise (RuntimeError ("Clustering '" +:+ cfg_algorithm cfg +:+ "' not recognized"))).
Proof.
  intros Hlen Htwo Hunknown. rewrite run_cluster_many by assumption.
  rewrite dispatch_unrecognized by assumption.
  rewrite length_select by (rewrite length_above; assumption). reflexivity.
Qed.

Lemma X20_witness :
  let L := Sample.libraries true true in
  result (run_cluster (L := L) (_clustering_algorithm_dict (L := L)) 1
            [of_Z 1; of_Z 1] [Sample.qa; Sample.qb] [] (Sample.cfg "kmeans")
            None None None)
  = Raise (RuntimeError "Clustering 'kmeans' not recognized").
Proof.
  intros L.
  rewrite (X20_unknown_algorithm_is_reported (L := L)
             (_clustering_algorithm_dict (L := L)) 0 [of_Z 1; of_Z 1]
             [Sample.qa; Sample.qb] [] (Sample.cfg "kmeans") None None None).
  - reflexivity.
  - reflexivity.
  - vm_compute. lia.
  - vm_compute. reflexivity.
Defined.
